(** * The command-line entry of vite: [packages/vite/src/node/cli.ts]

    A shallow embedding of the option filter [cleanOptions] and of the four
    command actions (serve, build, optimize, preview), together with the
    properties claimed for them.

    JavaScript objects live in a store and are passed by reference; the
    collaborators of the module (the subsystem entry points, the config
    resolver, the logger factory, the module loader) are an oracle that
    the actions call, and every call is recorded in a trace. *)

From Stdlib Require Import ZArith List.
From stdpp Require Import gmap strings list fin_maps.

Import ListNotations.
Local Open Scope string_scope.

(** ** Values and objects *)

Definition loc := positive.

(** The values an option bag or an object literal of [cli.ts] can hold.
    [VRef] points to an object of the store; [VForeign] is an object owned
    by a collaborator (a server, a resolved config), which [cli.ts] only
    passes on. *)
Inductive value : Type :=
| VUndefined
| VBool (b : bool)
| VStr (s : string)
| VNum (n : Z)
| VArr (items : list string)
| VRef (l : loc)
| VForeign (handle : N).

(** An object maps its own property names to values.  A property bound to
    [VUndefined] is present; an absent property has no binding. *)
Abbreviation obj := (gmap string value).
Abbreviation heap := (gmap loc obj).

(** [o.k]: reading a property that is absent gives [undefined]. *)
Definition get_prop (o : obj) (k : string) : value :=
  default VUndefined (o !! k).

(** ** Errors and collaborators *)

(** An error object as thrown by a collaborator. *)
Record Error : Type := mkError { message : string; stack : string }.

Inductive result (A : Type) : Type :=
| Ok (a : A)
| Err (e : Error).
Arguments Ok {A} a.
Arguments Err {A} e.

(** The functions of other modules that the actions call. *)
Inductive extfn : Type :=
| FCreateServer     (* createServer, from './server' *)
| FListen           (* server.listen *)
| FBuild            (* build, from './build' *)
| FResolveConfig    (* resolveConfig, from '.' *)
| FOptimizeDeps     (* optimizeDeps, from './optimizer' *)
| FPreview.         (* preview, from './preview' *)

Global Instance extfn_eq_dec : EqDecision extfn.
Proof. solve_decision. Defined.

(** A logger, as returned by [createLogger(level)]. *)
Record Logger : Type := mkLogger { logger_level : value }.

(** What the run of an action does to the outside, in order.  A module
    load and a call are recorded with what they gave back; a call is
    recorded with the store as it was when the call was made. *)
Inductive event : Type :=
| EvImport (specifier : string) (res : result unit)
| EvCall (f : extfn) (args : list value) (h : heap) (res : result value)
| EvCreateLogger (level : value)
| EvLoggerError (lg : Logger) (msg : string).

(** The collaborators.  [W] is whatever state they keep between calls.
    Loading a module and calling an entry point may fail with an error; a
    call sees the store as it is at the call but does not change the
    objects of [cli.ts].  [chalk_red] is [chalk.red]. *)
Record Env (W : Type) : Type := mkEnv {
  env_import : string -> W -> result unit * W;
  env_call : extfn -> list value -> heap -> W -> result value * W;
  chalk_red : string -> string
}.
Arguments env_import {W} _ _ _.
Arguments env_call {W} _ _ _ _ _.
Arguments chalk_red {W} _ _.

(** ** The monad of actions *)

Record state (W : Type) : Type := mkState {
  st_heap : heap;
  st_trace : list event;
  st_world : W
}.
Arguments mkState {W} _ _ _.
Arguments st_heap {W} _.
Arguments st_trace {W} _.
Arguments st_world {W} _.

(** A computation returns a value, throws, or ends the process
    ([process.exit(code)]). *)
Inductive outcome (A : Type) : Type :=
| Val (a : A)
| Thrown (e : Error)
| Exited (code : Z).
Arguments Val {A} a.
Arguments Thrown {A} e.
Arguments Exited {A} code.

Definition M (W A : Type) : Type := state W -> outcome A * state W.

Section Monad.
Context {W : Type}.

Definition ret {A} (a : A) : M W A := fun s => (Val a, s).

Definition bind {A B} (c : M W A) (k : A -> M W B) : M W B :=
  fun s =>
    match c s with
    | (Val a, s') => k a s'
    | (Thrown e, s') => (Thrown e, s')
    | (Exited n, s') => (Exited n, s')
    end.

(** [process.exit(code)]: nothing runs afterwards. *)
Definition process_exit {A} (code : Z) : M W A := fun s => (Exited code, s).

(** [try { body } catch (e) { handler e }] *)
Definition try_catch {A} (body : M W A) (handler : Error -> M W A) : M W A :=
  fun s =>
    match body s with
    | (Thrown e, s') => handler e s'
    | r => r
    end.

Definition emit (ev : event) : M W unit :=
  fun s => (Val tt, mkState (st_heap s) (st_trace s ++ [ev]) (st_world s)).

(** *** The store *)

(** A dangling reference reads as the empty object. *)
Definition read_obj (l : loc) : M W obj :=
  fun s => (Val (default ∅ (st_heap s !! l)), s).

(** [l.k] *)
Definition read_prop (l : loc) (k : string) : M W value :=
  fun s => (Val (get_prop (default ∅ (st_heap s !! l)) k), s).

(** A new object: an object literal. *)
Definition alloc (o : obj) : M W loc :=
  fun s =>
    let l := fresh (dom (st_heap s)) in
    (Val l, mkState (<[l := o]> (st_heap s)) (st_trace s) (st_world s)).

(** [{ ...l }]: a new object with the own properties of [l]. *)
Definition spread (l : loc) : M W loc :=
  bind (read_obj l) alloc.

(** [delete l[k]] *)
Definition delete_prop (l : loc) (k : string) : M W unit :=
  fun s =>
    (Val tt, mkState (alter (delete k) l (st_heap s)) (st_trace s) (st_world s)).
End Monad.

Declare Scope js_scope.
Delimit Scope js_scope with js.
Notation "'let*' x ':=' c 'in' k" := (bind c (fun x => k))
  (at level 10, x name, c at level 100, k at level 200) : js_scope.
Notation "c ';;;' k" := (bind c (fun _ => k))
  (at level 100, k at level 200, right associativity) : js_scope.
Local Open Scope js_scope.

(** ** [cleanOptions] *)

Section CleanOptions.
Context {W : Type}.

(** removing global flags before passing as command specific sub-configs *)
Definition cleanOptions (options : loc) : M W loc :=
  let* ret_ := spread options in
  delete_prop ret_ "--" ;;;
  delete_prop ret_ "debug" ;;;
  delete_prop ret_ "d" ;;;
  delete_prop ret_ "filter" ;;;
  delete_prop ret_ "f" ;;;
  delete_prop ret_ "config" ;;;
  delete_prop ret_ "c" ;;;
  delete_prop ret_ "root" ;;;
  delete_prop ret_ "base" ;;;
  delete_prop ret_ "r" ;;;
  delete_prop ret_ "mode" ;;;
  delete_prop ret_ "m" ;;;
  delete_prop ret_ "logLevel" ;;;
  delete_prop ret_ "l" ;;;
  delete_prop ret_ "clearScreen" ;;;
  ret ret_.
End CleanOptions.

(** The keys of [GlobalCLIOptions]. *)
Definition global_keys : list string :=
  ["--"; "debug"; "d"; "filter"; "f"; "config"; "c"; "root"; "base"; "r";
   "mode"; "m"; "logLevel"; "l"; "clearScreen"].

(** ** The command actions *)

Definition nl : string := String (Ascii.ascii_of_nat 10) EmptyString.

Section Actions.
Context {W : Type} (env : Env W).

(** Loading a module: [await import(specifier)], [import ... from
    specifier], [require(specifier)]. *)
Definition import_ (specifier : string) : M W unit :=
  fun s =>
    let '(res, w) := env_import env specifier (st_world s) in
    let s' := mkState (st_heap s) (st_trace s ++ [EvImport specifier res]) w in
    match res with
    | Ok _ => (Val tt, s')
    | Err e => (Thrown e, s')
    end.

(** [await f(args)] for a function of another module. *)
Definition call (f : extfn) (args : list value) : M W value :=
  fun s =>
    let '(res, w) := env_call env f args (st_heap s) (st_world s) in
    let s' := mkState (st_heap s) (st_trace s ++ [EvCall f args (st_heap s) res]) w in
    match res with
    | Ok v => (Val v, s')
    | Err e => (Thrown e, s')
    end.

Definition createLogger (level : value) : M W Logger :=
  emit (EvCreateLogger level) ;;;
  ret (mkLogger level).

Definition logger_error (lg : Logger) (msg : string) : M W unit :=
  emit (EvLoggerError lg msg).

(** The default command, alias [serve]. *)
Definition serve_action (root : value) (options : loc) : M W unit :=
  import_ "./server" ;;;
  try_catch
    (let* base := read_prop options "base" in
     let* mode := read_prop options "mode" in
     let* configFile := read_prop options "config" in
     let* logLevel := read_prop options "logLevel" in
     let* clearScreen := read_prop options "clearScreen" in
     let* server_options := cleanOptions options in
     let* inline := alloc (list_to_map
       [("root", root);
        ("base", base);
        ("mode", mode);
        ("configFile", configFile);
        ("logLevel", logLevel);
        ("clearScreen", clearScreen);
        ("server", VRef server_options)]) in
     let* server := call FCreateServer [VRef inline] in
     call FListen [server] ;;;
     ret tt)
    (fun e =>
     let* logLevel := read_prop options "logLevel" in
     let* logger := createLogger logLevel in
     logger_error logger
       (chalk_red env ("error when starting dev server:" ++ nl ++ stack e)) ;;;
     process_exit 1).

Definition build_action (root : value) (options : loc) : M W unit :=
  import_ "./build" ;;;
  let* buildOptions := cleanOptions options in
  try_catch
    (let* base := read_prop options "base" in
     let* mode := read_prop options "mode" in
     let* configFile := read_prop options "config" in
     let* logLevel := read_prop options "logLevel" in
     let* clearScreen := read_prop options "clearScreen" in
     let* inline := alloc (list_to_map
       [("root", root);
        ("base", base);
        ("mode", mode);
        ("configFile", configFile);
        ("logLevel", logLevel);
        ("clearScreen", clearScreen);
        ("build", VRef buildOptions)]) in
     call FBuild [VRef inline] ;;;
     ret tt)
    (fun e =>
     let* logLevel := read_prop options "logLevel" in
     let* logger := createLogger logLevel in
     logger_error logger
       (chalk_red env ("error during build:" ++ nl ++ stack e)) ;;;
     process_exit 1).

Definition optimize_action (root : value) (options : loc) : M W unit :=
  import_ "./optimizer" ;;;
  try_catch
    (let* base := read_prop options "base" in
     let* configFile := read_prop options "config" in
     let* logLevel := read_prop options "logLevel" in
     let* inline := alloc (list_to_map
       [("root", root);
        ("base", base);
        ("configFile", configFile);
        ("logLevel", logLevel)]) in
     let* config :=
       call FResolveConfig [VRef inline; VStr "build"; VStr "development"] in
     let* force := read_prop options "force" in
     call FOptimizeDeps [config; force; VBool true] ;;;
     ret tt)
    (fun e =>
     let* logLevel := read_prop options "logLevel" in
     let* logger := createLogger logLevel in
     logger_error logger
       (chalk_red env ("error when optimizing deps:" ++ nl ++ stack e)) ;;;
     process_exit 1).

Definition preview_action (root : value) (options : loc) : M W unit :=
  try_catch
    (let* base := read_prop options "base" in
     let* configFile := read_prop options "config" in
     let* logLevel := read_prop options "logLevel" in
     let* open := read_prop options "open" in
     let* server := alloc (list_to_map [("open", open)]) in
     let* inline := alloc (list_to_map
       [("root", root);
        ("base", base);
        ("configFile", configFile);
        ("logLevel", logLevel);
        ("server", VRef server)]) in
     let* config :=
       call FResolveConfig [VRef inline; VStr "serve"; VStr "development"] in
     let* port := read_prop options "port" in
     call FPreview [config; port] ;;;
     ret tt)
    (fun e =>
     let* logLevel := read_prop options "logLevel" in
     let* logger := createLogger logLevel in
     logger_error logger
       (chalk_red env ("error when starting preview server:" ++ nl ++ stack e)) ;;;
     process_exit 1).

(** *** The program: module header, then the action that [cli.parse()]
    selects *)

Inductive command : Type := CmdServe | CmdBuild | CmdOptimize | CmdPreview.

Definition action (c : command) : value -> loc -> M W unit :=
  match c with
  | CmdServe => serve_action
  | CmdBuild => build_action
  | CmdOptimize => optimize_action
  | CmdPreview => preview_action
  end.

(** The [import] declarations at the head of the file, in order, each
    with whether one of its bindings is used as a value.  [BuildOptions]
    and [ServerOptions] are only types: the compiler drops those two
    declarations, the others load their module when the program starts. *)
Definition static_imports : list (string * bool) :=
  [("cac", true);
   ("chalk", true);
   ("./build", false);
   ("./server", false);
   ("./logger", true);
   (".", true);
   ("./preview", true)].

Fixpoint load_all (decls : list (string * bool)) : M W unit :=
  match decls with
  | [] => ret tt
  | (specifier, true) :: rest => import_ specifier ;;; load_all rest
  | (_, false) :: rest => load_all rest
  end.

Definition main (c : command) (root : value) (options : loc) : M W unit :=
  load_all static_imports ;;;
  import_ "../../package.json" ;;;
  action c root options.
End Actions.

(** ** Reading a trace *)

(** The calls of [f], each with its arguments, the store at the call and
    its result. *)
Fixpoint calls_of (f : extfn) (tr : list event)
  : list (list value * heap * result value) :=
  match tr with
  | [] => []
  | EvCall g args h res :: tr' =>
      if decide (g = f) then (args, h, res) :: calls_of f tr' else calls_of f tr'
  | _ :: tr' => calls_of f tr'
  end.

(** The lines given to [logger.error]. *)
Fixpoint error_lines (tr : list event) : list (Logger * string) :=
  match tr with
  | [] => []
  | EvLoggerError lg msg :: tr' => (lg, msg) :: error_lines tr'
  | _ :: tr' => error_lines tr'
  end.

(** The modules loaded. *)
Fixpoint loaded (tr : list event) : list string :=
  match tr with
  | [] => []
  | EvImport specifier _ :: tr' => specifier :: loaded tr'
  | _ :: tr' => loaded tr'
  end.

(** A run starts with an empty trace. *)
Definition init {W : Type} (h : heap) (w : W) : state W := mkState h [] w.

(** ** What the actions build and report *)

(** An object with the properties [ks] deleted, one after the other. *)
Definition without_keys (ks : list string) (o : obj) : obj :=
  foldl (fun acc k => delete k acc) o ks.

(** What each [catch] clause does with the error [e]: one logger, one
    line, [process.exit(1)].  [context] is the text before the colon. *)
Definition context_of (c : command) : string :=
  match c with
  | CmdServe => "error when starting dev server"
  | CmdBuild => "error during build"
  | CmdOptimize => "error when optimizing deps"
  | CmdPreview => "error when starting preview server"
  end.

Definition report_events {W : Type} (env : Env W) (c : command)
    (level : value) (e : Error) : list event :=
  [EvCreateLogger level;
   EvLoggerError (mkLogger level)
     (chalk_red env (context_of c ++ ":" ++ nl ++ stack e))].

(** The object literals the actions build. *)
Definition envelope (root : value) (m : obj) (field : string) (r : loc) : obj :=
  list_to_map
    [("root", root);
     ("base", get_prop m "base");
     ("mode", get_prop m "mode");
     ("configFile", get_prop m "config");
     ("logLevel", get_prop m "logLevel");
     ("clearScreen", get_prop m "clearScreen");
     (field, VRef r)].

Definition optimize_config (root : value) (m : obj) : obj :=
  list_to_map
    [("root", root);
     ("base", get_prop m "base");
     ("configFile", get_prop m "config");
     ("logLevel", get_prop m "logLevel")].

Definition preview_config (root : value) (m : obj) (sv : loc) : obj :=
  list_to_map
    [("root", root);
     ("base", get_prop m "base");
     ("configFile", get_prop m "config");
     ("logLevel", get_prop m "logLevel");
     ("server", VRef sv)].

(** ** Sample collaborators and a sample bag *)

Definition sample_error : Error :=
  mkError "listen EADDRINUSE" "Error: listen EADDRINUSE at Server.listen".

(** Collaborators that count the calls made to them; the modules of
    [bad_module] fail to load and the functions of [bad_call] throw. *)
Definition sample_env (bad_module : string -> bool) (bad_call : extfn -> bool)
  : Env nat :=
  mkEnv nat
    (fun specifier n =>
       (if bad_module specifier then Err sample_error else Ok tt, S n))
    (fun f _ _ n =>
       (if bad_call f then Err sample_error else Ok (VForeign (N.of_nat n)), S n))
    (fun s => "<red>" ++ s ++ "</red>").

Definition all_fine : Env nat := sample_env (fun _ => false) (fun _ => false).

Definition sample_bag : obj :=
  list_to_map
    [("--", VArr []);
     ("minify", VUndefined);
     ("outDir", VStr "out");
     ("mode", VStr "production");
     ("m", VStr "production");
     ("logLevel", VStr "warn");
     ("l", VStr "warn");
     ("force", VBool true);
     ("port", VNum 5000);
     ("open", VBool true)].

Definition sample_heap : heap := {[ 1%positive := sample_bag ]}.

(** The bag of a command line without options. *)
Definition plain_bag : obj := list_to_map [("--", VArr [])].

(** The sample bag with another [root] and without [l]. *)
Definition other_bag : obj :=
  <["root" := VStr "/srv/www"]> (delete "l" sample_bag).

(** ** Reading a run *)

(** A load or a call that threw. *)
Definition failed (ev : event) : bool :=
  match ev with
  | EvImport _ (Err _) => true
  | EvCall _ _ _ (Err _) => true
  | _ => false
  end.

(** The levels given to [createLogger]. *)
Fixpoint loggers_created (tr : list event) : list value :=
  match tr with
  | [] => []
  | EvCreateLogger level :: tr' => level :: loggers_created tr'
  | _ :: tr' => loggers_created tr'
  end.

(** The functions each action calls, in the order of the source. *)
Definition collaborators_of (c : command) : list extfn :=
  match c with
  | CmdServe => [FCreateServer; FListen]
  | CmdBuild => [FBuild]
  | CmdOptimize => [FResolveConfig; FOptimizeDeps]
  | CmdPreview => [FResolveConfig; FPreview]
  end.

(** The module each action imports itself. *)
Definition own_module (c : command) : list string :=
  match c with
  | CmdServe => ["./server"]
  | CmdBuild => ["./build"]
  | CmdOptimize => ["./optimizer"]
  | CmdPreview => []
  end.

(** The modules loaded before [cli.parse()] selects an action: the
    imports of the head of the file that bind a value, then
    [package.json]. *)
Definition startup_modules : list string :=
  (map fst (filter (fun d : string * bool => snd d) static_imports)
     ++ ["../../package.json"])%list.

(** Two stores that hold the same objects, the bag set aside. *)
Definition stores_agree_off (options : loc) (h1 h2 : heap) : Prop :=
  forall l, l <> options -> h1 !! l = h2 !! l.

(** Two events that show the same thing to the outside: the same load
    with the same result, the same call with the same arguments and the
    same result in stores that agree but for the bag, the same logger,
    the same line. *)
Definition events_agree_off (options : loc) (e1 e2 : event) : Prop :=
  match e1, e2 with
  | EvImport s1 r1, EvImport s2 r2 => s1 = s2 /\ r1 = r2
  | EvCall f1 a1 h1 r1, EvCall f2 a2 h2 r2 =>
      f1 = f2 /\ a1 = a2 /\ r1 = r2 /\ stores_agree_off options h1 h2
  | EvCreateLogger l1, EvCreateLogger l2 => l1 = l2
  | EvLoggerError lg1 msg1, EvLoggerError lg2 msg2 => lg1 = lg2 /\ msg1 = msg2
  | _, _ => False
  end.

(** The keys of [GlobalCLIOptions] that no action reads: all but
    [config], [base], [mode], [logLevel] and [clearScreen]. *)
Definition unread_keys : list string :=
  ["--"; "debug"; "d"; "filter"; "f"; "c"; "root"; "r"; "m"; "l"].

(** A result with the events [t] put before its trace. *)
Definition shift {W A : Type} (t : list event) (r : outcome A * state W)
  : outcome A * state W :=
  (r.1, mkState (st_heap r.2) (t ++ st_trace r.2) (st_world r.2)).

(** A computation that only adds to the trace and never reads it. *)
Definition framed {W A : Type} (c : M W A) : Prop :=
  forall (h : heap) (t : list event) (w : W),
    c (mkState h t w) = shift t (c (mkState h [] w)).

(** ** What [cleanOptions] computes *)

Lemma lookup_without_keys (ks : list string) (o : obj) (k : string) :
  without_keys ks o !! k = if decide (k ∈ ks) then None else o !! k.
Proof.
  unfold without_keys. revert o.
  induction ks as [|k' ks IH]; intros o; cbn [foldl].
  - destruct (decide (k ∈ [])) as [Hin|_]; [by apply elem_of_nil in Hin | done].
  - rewrite IH.
    destruct (decide (k ∈ ks)) as [Hin|Hin];
      destruct (decide (k ∈ k' :: ks)) as [Hin'|Hin']; try done.
    + exfalso. apply Hin'. by right.
    + apply elem_of_cons in Hin' as [->|?]; [apply lookup_delete_eq|done].
    + apply lookup_delete_ne. intros ->. apply Hin'. by left.
Qed.

Lemma without_keys_twice (ks : list string) (o : obj) :
  without_keys ks (without_keys ks o) = without_keys ks o.
Proof.
  apply map_eq. intros k. rewrite !lookup_without_keys.
  by case_decide.
Qed.

Section CleanOptionsFacts.
Context {W : Type}.

(** The whole effect of one call: one new object, nothing else touched. *)
Lemma cleanOptions_run (options : loc) (s : state W) :
  cleanOptions options s =
  (Val (fresh (dom (st_heap s))),
   mkState
     (<[fresh (dom (st_heap s)) :=
          without_keys global_keys (default ∅ (st_heap s !! options))]> (st_heap s))
     (st_trace s) (st_world s)).
Proof.
  destruct s as [h t w].
  cbv [cleanOptions spread bind read_obj alloc delete_prop ret
       st_heap st_trace st_world].
  rewrite !alter_insert_eq. reflexivity.
Qed.

Lemma fresh_loc_unused (h : heap) : h !! fresh (dom h) = None.
Proof. apply not_elem_of_dom, is_fresh. Qed.

Lemma fresh_loc_ne (h : heap) (l : loc) (o : obj) :
  h !! l = Some o -> fresh (dom h) ≠ l.
Proof. intros Hl Heq. rewrite <- Heq, fresh_loc_unused in Hl. done. Qed.

(** Allocation keeps the objects that exist. *)
Lemma lookup_alloc_old (h : heap) (l : loc) (o o' : obj) :
  h !! l = Some o -> <[fresh (dom h) := o']> h !! l = Some o.
Proof.
  intros Hl. rewrite lookup_insert_ne; [done|]. by eapply fresh_loc_ne.
Qed.

(** Two allocations in a row give two objects. *)
Lemma lookup_alloc_first (h : heap) (o o' : obj) :
  <[fresh (dom (<[fresh (dom h) := o]> h)) := o']> (<[fresh (dom h) := o]> h)
    !! fresh (dom h) = Some o.
Proof. apply lookup_alloc_old, lookup_insert_eq. Qed.
End CleanOptionsFacts.

(** ** Properties of the option filter *)

(** C1. For every options bag [m] (the object that [options] refers to),
    [cleanOptions(options)] returns an object that has no key of the
    global-key set, and that binds every other key exactly as [m] does:
    present with the same value when [m] has it, absent when [m] has not. *)
Theorem cleanOptions_removes_exactly_global_keys
    {W : Type} (s : state W) (options : loc) (m : obj) :
  st_heap s !! options = Some m ->
  exists (r : loc) (s' : state W) (m' : obj),
    cleanOptions options s = (Val r, s') /\
    st_heap s' !! r = Some m' /\
    (forall k, k ∈ global_keys -> m' !! k = None) /\
    (forall k, k ∉ global_keys -> m' !! k = m !! k).
Proof.
  intros Hm. rewrite cleanOptions_run, Hm. cbn [default].
  eexists _, _, _. split; [reflexivity|]. cbn [st_heap].
  split; [apply lookup_insert_eq|].
  split; intros k Hk; rewrite lookup_without_keys; by case_decide.
Qed.

(** C2. [cleanOptions] is idempotent: filtering the object it returned
    gives an object with the same content.  It does not mutate: the object
    returned is new, and after the call every object that existed before,
    the input bag among them, is as it was. *)
Theorem cleanOptions_idempotent_and_pure
    {W : Type} (s : state W) (options : loc) (m : obj) :
  st_heap s !! options = Some m ->
  exists (r1 r2 : loc) (s1 s2 : state W) (m1 : obj),
    cleanOptions options s = (Val r1, s1) /\
    cleanOptions r1 s1 = (Val r2, s2) /\
    st_heap s1 !! r1 = Some m1 /\
    st_heap s2 !! r2 = Some m1 /\
    st_heap s1 !! options = Some m /\
    st_heap s !! r1 = None /\
    (forall l, l ∈ dom (st_heap s) -> st_heap s1 !! l = st_heap s !! l) /\
    (forall l, l ∈ dom (st_heap s1) -> st_heap s2 !! l = st_heap s1 !! l) /\
    st_trace s1 = st_trace s /\ st_world s1 = st_world s.
Proof.
  intros Hm.
  eexists _, _, _, _, _.
  split; [apply cleanOptions_run|].
  split; [apply cleanOptions_run|].
  cbn [st_heap st_trace st_world]. rewrite Hm. cbn [default].
  assert (Hne : fresh (dom (st_heap s)) ≠ options) by (eapply fresh_loc_ne; eauto).
  split; [apply lookup_insert_eq|].
  split.
  { rewrite !lookup_insert_eq. cbn [default id]. by rewrite without_keys_twice. }
  split; [by rewrite lookup_insert_ne|].
  split; [apply fresh_loc_unused|].
  split.
  { intros l Hl. apply lookup_insert_ne. intros <-. by apply is_fresh in Hl. }
  split.
  { intros l Hl. apply lookup_insert_ne. intros <-. by apply is_fresh in Hl. }
  done.
Qed.

(** ** Running the actions *)

Ltac run_cbv :=
  cbv [action serve_action build_action optimize_action preview_action
       createLogger logger_error emit
       bind try_catch import_ call read_prop alloc ret process_exit init
       st_heap st_trace st_world app report_events context_of
       envelope optimize_config preview_config].

(** After the allocations of an action the bag is still where it was;
    then one case per answer of the collaborators. *)
Ltac keep_bag :=
  cbv [st_heap st_trace st_world app];
  match goal with
  | Hm : _ !! _ = Some _ |- _ =>
      rewrite ?(lookup_alloc_old _ _ _ _ (lookup_alloc_old _ _ _ _ Hm)),
              ?(lookup_alloc_old _ _ _ _ Hm)
  end.

Ltac run_calls :=
  keep_bag;
  repeat match goal with
  | |- context [env_call ?env ?f ?a ?hh ?ww] =>
      destruct (env_call env f a hh ww) as [[?|?] ?]; keep_bag
  end;
  reflexivity.

Section Runs.
Context {W : Type} (env : Env W).
Context (root : value) (options : loc) (h : heap) (w : W) (m : obj).
Hypothesis Hm : h !! options = Some m.

(** A module that fails to load: the error leaves the action. *)
Lemma import_fails_run (c : command) (specifier : string) (e : Error) (w0 : W) :
  c ≠ CmdPreview ->
  specifier = match c with
              | CmdServe => "./server" | CmdBuild => "./build"
              | _ => "./optimizer"
              end ->
  env_import env specifier w = (Err e, w0) ->
  action env c root options (init h w) =
  (Thrown e, mkState h [EvImport specifier (Err e)] w0).
Proof.
  intros Hc -> Himp.
  destruct c; try done; run_cbv; rewrite Himp; reflexivity.
Qed.

Lemma serve_run (w0 : W) :
  env_import env "./server" w = (Ok tt, w0) ->
  serve_action env root options (init h w) =
  let r := fresh (dom h) in
  let h1 := <[r := without_keys global_keys m]> h in
  let c := fresh (dom h1) in
  let hc := <[c := envelope root m "server" r]> h1 in
  let t0 := [EvImport "./server" (Ok tt)] in
  let lvl := get_prop m "logLevel" in
  match env_call env FCreateServer [VRef c] hc w0 with
  | (Ok sv, w1) =>
      let t1 := (t0 ++ [EvCall FCreateServer [VRef c] hc (Ok sv)])%list in
      match env_call env FListen [sv] hc w1 with
      | (Ok v, w2) =>
          (Val tt, mkState hc (t1 ++ [EvCall FListen [sv] hc (Ok v)]) w2)
      | (Err e, w2) =>
          (Exited 1,
           mkState hc (t1 ++ EvCall FListen [sv] hc (Err e)
                          :: report_events env CmdServe lvl e) w2)
      end
  | (Err e, w1) =>
      (Exited 1,
       mkState hc (t0 ++ EvCall FCreateServer [VRef c] hc (Err e)
                      :: report_events env CmdServe lvl e) w1)
  end.
Proof.
  intros Himp. run_cbv. rewrite Himp, cleanOptions_run.
  cbv [st_heap st_trace st_world]. rewrite Hm. cbv [default id].
  run_calls.
Qed.

Lemma build_run (w0 : W) :
  env_import env "./build" w = (Ok tt, w0) ->
  build_action env root options (init h w) =
  let r := fresh (dom h) in
  let h1 := <[r := without_keys global_keys m]> h in
  let c := fresh (dom h1) in
  let hc := <[c := envelope root m "build" r]> h1 in
  let t0 := [EvImport "./build" (Ok tt)] in
  let lvl := get_prop m "logLevel" in
  match env_call env FBuild [VRef c] hc w0 with
  | (Ok v, w1) =>
      (Val tt, mkState hc (t0 ++ [EvCall FBuild [VRef c] hc (Ok v)]) w1)
  | (Err e, w1) =>
      (Exited 1,
       mkState hc (t0 ++ EvCall FBuild [VRef c] hc (Err e)
                      :: report_events env CmdBuild lvl e) w1)
  end.
Proof.
  intros Himp. run_cbv. rewrite Himp, cleanOptions_run.
  cbv [st_heap st_trace st_world]. rewrite Hm. cbv [default id].
  rewrite (lookup_alloc_old h options m _ Hm). cbv [default id].
  run_calls.
Qed.

Lemma optimize_run (w0 : W) :
  env_import env "./optimizer" w = (Ok tt, w0) ->
  optimize_action env root options (init h w) =
  let c := fresh (dom h) in
  let hc := <[c := optimize_config root m]> h in
  let t0 := [EvImport "./optimizer" (Ok tt)] in
  let lvl := get_prop m "logLevel" in
  let args := [VRef c; VStr "build"; VStr "development"] in
  match env_call env FResolveConfig args hc w0 with
  | (Ok config, w1) =>
      let t1 := (t0 ++ [EvCall FResolveConfig args hc (Ok config)])%list in
      let args' := [config; get_prop m "force"; VBool true] in
      match env_call env FOptimizeDeps args' hc w1 with
      | (Ok v, w2) =>
          (Val tt, mkState hc (t1 ++ [EvCall FOptimizeDeps args' hc (Ok v)]) w2)
      | (Err e, w2) =>
          (Exited 1,
           mkState hc (t1 ++ EvCall FOptimizeDeps args' hc (Err e)
                          :: report_events env CmdOptimize lvl e) w2)
      end
  | (Err e, w1) =>
      (Exited 1,
       mkState hc (t0 ++ EvCall FResolveConfig args hc (Err e)
                      :: report_events env CmdOptimize lvl e) w1)
  end.
Proof.
  intros Himp. run_cbv. rewrite Himp.
  rewrite Hm. cbv [default id].
  run_calls.
Qed.

Lemma preview_run :
  preview_action env root options (init h w) =
  let sv := fresh (dom h) in
  let h1 := <[sv := {[ "open" := get_prop m "open" ]}]> h in
  let c := fresh (dom h1) in
  let hc := <[c := preview_config root m sv]> h1 in
  let lvl := get_prop m "logLevel" in
  let args := [VRef c; VStr "serve"; VStr "development"] in
  match env_call env FResolveConfig args hc w with
  | (Ok config, w1) =>
      let t1 := [EvCall FResolveConfig args hc (Ok config)] in
      let args' := [config; get_prop m "port"] in
      match env_call env FPreview args' hc w1 with
      | (Ok v, w2) =>
          (Val tt, mkState hc (t1 ++ [EvCall FPreview args' hc (Ok v)]) w2)
      | (Err e, w2) =>
          (Exited 1,
           mkState hc (t1 ++ EvCall FPreview args' hc (Err e)
                          :: report_events env CmdPreview lvl e) w2)
      end
  | (Err e, w1) =>
      (Exited 1,
       mkState hc (EvCall FResolveConfig args hc (Err e)
                     :: report_events env CmdPreview lvl e) w1)
  end.
Proof.
  run_cbv. rewrite Hm. cbv [default id].
  change (list_to_map [("open", get_prop m "open")])
    with (<["open" := get_prop m "open"]> (∅ : obj)).
  rewrite insert_empty.
  run_calls.
Qed.
End Runs.

Lemma calls_of_call (f g : extfn) args (h : heap) res (tr : list event) :
  calls_of f (EvCall g args h res :: tr) =
  if decide (g = f) then (args, h, res) :: calls_of f tr else calls_of f tr.
Proof. reflexivity. Qed.

Ltac calls_simpl :=
  cbn [calls_of error_lines loaded app report_events];
  repeat first [ rewrite calls_of_call
               | rewrite decide_True by done
               | rewrite decide_False by done ];
  cbn [calls_of error_lines loaded app].

(** ** Properties of the actions *)

(** C4. In every run of the serve action on the root [root] and the bag
    [m] in which the server module loads, [createServer] is called exactly
    once, right after the load, with an object that holds [root], the
    bag's [base], [mode], [config] (as [configFile]), [logLevel] and
    [clearScreen], and under [server] the object that [cleanOptions]
    returns for the bag; when that call returns a server, the next thing
    the action does is its one call of the server's [listen]. *)
Theorem serve_calls_createServer_then_listen
    {W : Type} (env : Env W) (root : value) (options : loc)
    (h : heap) (w w0 : W) (m : obj) :
  h !! options = Some m ->
  env_import env "./server" w = (Ok tt, w0) ->
  exists (c r : loc) (hc : heap) (m' : obj) (res : result value)
         (rest : list event),
    st_trace (serve_action env root options (init h w)).2 =
      EvImport "./server" (Ok tt)
        :: EvCall FCreateServer [VRef c] hc res :: rest /\
    calls_of FCreateServer (st_trace (serve_action env root options (init h w)).2) =
      [([VRef c], hc, res)] /\
    hc !! c = Some (envelope root m "server" r) /\
    hc !! r = Some m' /\
    (cleanOptions options (init h w0)).1 = Val r /\
    st_heap (cleanOptions options (init h w0)).2 !! r = Some m' /\
    (forall server, res = Ok server ->
       exists res' rest',
         rest = EvCall FListen [server] hc res' :: rest' /\
         calls_of FListen (st_trace (serve_action env root options (init h w)).2) =
           [([server], hc, res')]).
Proof.
  intros Hm Himp. rewrite (serve_run env root options h w m Hm w0 Himp).
  rewrite cleanOptions_run. cbv zeta. cbn [init st_heap fst snd].
  rewrite Hm. cbn [default].
  pose proof (lookup_alloc_first h (without_keys global_keys m)
                (envelope root m "server" (fresh (dom h)))) as Hr.
  set (r := fresh (dom h)) in *.
  set (h1 := <[r := without_keys global_keys m]> h) in *.
  set (c := fresh (dom h1)) in *.
  set (hc := <[c := envelope root m "server" r]> h1) in *.
  assert (Hc : hc !! c = Some (envelope root m "server" r))
    by apply lookup_insert_eq.
  assert (Hr1 : h1 !! r = Some (without_keys global_keys m))
    by apply lookup_insert_eq.
  destruct (env_call env FCreateServer [VRef c] hc w0) as [[sv|e] w1].
  - destruct (env_call env FListen [sv] hc w1) as [[v|e] w2];
      cbn [fst snd st_trace app];
      eexists c, r, hc, _, (Ok sv), _;
      (split; [reflexivity|]); calls_simpl;
      (split; [reflexivity|]); do 4 (split; [eassumption || reflexivity|]);
      intros ? [= <-]; eexists _, _; split; reflexivity.
  - cbn [fst snd st_trace app];
      eexists c, r, hc, _, (Err e), _;
      (split; [reflexivity|]); calls_simpl;
      (split; [reflexivity|]); do 4 (split; [eassumption || reflexivity|]).
    intros ? [=].
Qed.

(** The one call of [build] in a run where the module loads. *)
Lemma build_calls_build_once_aux
    {W : Type} (env : Env W) (root : value) (options : loc)
    (h : heap) (w w0 : W) (m : obj) :
  h !! options = Some m ->
  env_import env "./build" w = (Ok tt, w0) ->
  exists (c r : loc) (hc : heap) (res : result value),
    calls_of FBuild (st_trace (build_action env root options (init h w)).2) =
      [([VRef c], hc, res)] /\
    hc !! c = Some (envelope root m "build" r) /\
    hc !! r = Some (without_keys global_keys m).
Proof.
  intros Hm Himp. rewrite (build_run env root options h w m Hm w0 Himp).
  cbv zeta.
  pose proof (lookup_alloc_first h (without_keys global_keys m)
                (envelope root m "build" (fresh (dom h)))) as Hr.
  set (r := fresh (dom h)) in *.
  set (h1 := <[r := without_keys global_keys m]> h) in *.
  set (c := fresh (dom h1)) in *.
  set (hc := <[c := envelope root m "build" r]> h1) in *.
  assert (Hc : hc !! c = Some (envelope root m "build" r))
    by apply lookup_insert_eq.
  destruct (env_call env FBuild [VRef c] hc w0) as [[v|e] w1];
    cbn [fst snd st_trace app];
    eexists c, r, hc, _; calls_simpl;
    (split; [reflexivity|]); split; assumption.
Qed.

(** C5. In every run of the build action on the root [root] and the bag
    [m] in which the build module loads, [build] is called exactly once,
    with an object that holds [root], the bag's [base], [mode], [config]
    (as [configFile]), [logLevel] and [clearScreen], and under [build] the
    object that [cleanOptions] returns for the bag; when the call returns,
    the action returns at once: the call is the last thing in the trace. *)
Theorem build_calls_build_once
    {W : Type} (env : Env W) (root : value) (options : loc)
    (h : heap) (w w0 : W) (m : obj) :
  h !! options = Some m ->
  env_import env "./build" w = (Ok tt, w0) ->
  exists (c r : loc) (hc : heap) (m' : obj) (res : result value)
         (rest : list event),
    st_trace (build_action env root options (init h w)).2 =
      EvImport "./build" (Ok tt) :: EvCall FBuild [VRef c] hc res :: rest /\
    calls_of FBuild (st_trace (build_action env root options (init h w)).2) =
      [([VRef c], hc, res)] /\
    hc !! c = Some (envelope root m "build" r) /\
    hc !! r = Some m' /\
    (cleanOptions options (init h w0)).1 = Val r /\
    st_heap (cleanOptions options (init h w0)).2 !! r = Some m' /\
    (forall v, res = Ok v ->
       (build_action env root options (init h w)).1 = Val tt /\ rest = []).
Proof.
  intros Hm Himp. rewrite (build_run env root options h w m Hm w0 Himp).
  rewrite cleanOptions_run. cbv zeta. cbn [init st_heap fst snd].
  rewrite Hm. cbn [default].
  pose proof (lookup_alloc_first h (without_keys global_keys m)
                (envelope root m "build" (fresh (dom h)))) as Hr.
  set (r := fresh (dom h)) in *.
  set (h1 := <[r := without_keys global_keys m]> h) in *.
  set (c := fresh (dom h1)) in *.
  set (hc := <[c := envelope root m "build" r]> h1) in *.
  assert (Hc : hc !! c = Some (envelope root m "build" r))
    by apply lookup_insert_eq.
  assert (Hr1 : h1 !! r = Some (without_keys global_keys m))
    by apply lookup_insert_eq.
  destruct (env_call env FBuild [VRef c] hc w0) as [[v|e] w1];
    cbn [fst snd st_trace app];
    eexists c, r, hc, _, _, _;
    (split; [reflexivity|]); calls_simpl;
    (split; [reflexivity|]); do 4 (split; [eassumption || reflexivity|]).
  - intros ? _. split; reflexivity.
  - intros ? [=].
Qed.

(** C6, as the code has it.  In every run of the optimize action in which
    the optimizer module loads, the first call is the one call of
    [resolveConfig], with the command 'build' and an object whose only
    properties are [root], the bag's [base], its [config] (as
    [configFile]) and its [logLevel]; when that call returns a config, the
    next thing the action does is its one call of [optimizeDeps], with
    that config, [options.force] as it is, and [true].  The second
    argument is the boolean [b] when the bag binds [force] to [b], and
    [undefined] when the bag has no key [force]: nothing is converted. *)
Theorem optimize_resolves_then_optimizes
    {W : Type} (env : Env W) (root : value) (options : loc)
    (h : heap) (w w0 : W) (m : obj) :
  h !! options = Some m ->
  env_import env "./optimizer" w = (Ok tt, w0) ->
  exists (c : loc) (hc : heap) (res : result value) (rest : list event),
    st_trace (optimize_action env root options (init h w)).2 =
      EvImport "./optimizer" (Ok tt)
        :: EvCall FResolveConfig [VRef c; VStr "build"; VStr "development"] hc res
        :: rest /\
    calls_of FResolveConfig (st_trace (optimize_action env root options (init h w)).2) =
      [([VRef c; VStr "build"; VStr "development"], hc, res)] /\
    hc !! c = Some (optimize_config root m) /\
    dom (optimize_config root m) =
      ({[ "root"; "base"; "configFile"; "logLevel" ]} : gset string) /\
    (forall config, res = Ok config ->
       exists res' rest',
         rest = EvCall FOptimizeDeps [config; get_prop m "force"; VBool true] hc res'
                  :: rest' /\
         calls_of FOptimizeDeps (st_trace (optimize_action env root options (init h w)).2) =
           [([config; get_prop m "force"; VBool true], hc, res')]) /\
    (forall b, m !! "force" = Some (VBool b) -> get_prop m "force" = VBool b) /\
    (m !! "force" = None -> get_prop m "force" = VUndefined).
Proof.
  intros Hm Himp. rewrite (optimize_run env root options h w m Hm w0 Himp).
  cbv zeta.
  set (c := fresh (dom h)).
  set (hc := <[c := optimize_config root m]> h).
  assert (Hc : hc !! c = Some (optimize_config root m))
    by apply lookup_insert_eq.
  assert (Hdom : dom (optimize_config root m) =
                 ({[ "root"; "base"; "configFile"; "logLevel" ]} : gset string)).
  { unfold optimize_config. cbn [list_to_map foldr uncurry fst snd].
    rewrite !dom_insert_L, dom_empty_L. set_solver. }
  assert (Hforce : (forall b, m !! "force" = Some (VBool b) ->
                              get_prop m "force" = VBool b) /\
                   (m !! "force" = None -> get_prop m "force" = VUndefined)).
  { unfold get_prop. split; [intros b Hb|intros Hb]; by rewrite Hb. }
  destruct (env_call env FResolveConfig _ hc w0) as [[config|e] w1].
  - destruct (env_call env FOptimizeDeps _ hc w1) as [[v|e] w2];
      cbn [fst snd st_trace app];
      eexists c, hc, _, _;
      (split; [reflexivity|]); calls_simpl;
      (split; [reflexivity|]); do 2 (split; [eassumption || reflexivity|]);
      (split; [|assumption]);
      intros ? [= <-]; eexists _, _; split; reflexivity.
  - cbn [fst snd st_trace app];
      eexists c, hc, _, _;
      (split; [reflexivity|]); calls_simpl;
      (split; [reflexivity|]); do 2 (split; [eassumption || reflexivity|]).
    split; [|assumption]. intros ? [=].
Qed.

(** C6 does not hold as it is worded on the bag of [vite optimize] given
    without [--force]: the second argument of [optimizeDeps] is
    [undefined], which is no boolean. *)
Lemma optimize_passes_undefined_force :
  plain_bag !! "force" = None /\
  calls_of FOptimizeDeps
    (st_trace (optimize_action all_fine (VStr ".") 1%positive
                 (init {[ 1%positive := plain_bag ]} 0)).2) =
    [([VForeign 1; VUndefined; VBool true],
      <[2%positive := optimize_config (VStr ".") plain_bag]>
        {[ 1%positive := plain_bag ]},
      Ok (VForeign 2))].
Proof. split; [reflexivity|]. vm_compute. reflexivity. Qed.

(** C7. In every run of the preview action the first thing done is the
    one call of [resolveConfig], with the command 'serve' and an object
    that holds [root], the bag's [base], its [config] (as [configFile]),
    its [logLevel] and, under [server], an object whose one property
    [open] is the bag's [open]; when that call returns a config, the next
    thing the action does is its one call of [preview], with that config
    and the bag's [port]. *)
Theorem preview_resolves_then_previews
    {W : Type} (env : Env W) (root : value) (options : loc)
    (h : heap) (w : W) (m : obj) :
  h !! options = Some m ->
  exists (c sv : loc) (hc : heap) (res : result value) (rest : list event),
    st_trace (preview_action env root options (init h w)).2 =
      EvCall FResolveConfig [VRef c; VStr "serve"; VStr "development"] hc res
        :: rest /\
    calls_of FResolveConfig (st_trace (preview_action env root options (init h w)).2) =
      [([VRef c; VStr "serve"; VStr "development"], hc, res)] /\
    hc !! c = Some (preview_config root m sv) /\
    hc !! sv = Some {[ "open" := get_prop m "open" ]} /\
    (forall config, res = Ok config ->
       exists res' rest',
         rest = EvCall FPreview [config; get_prop m "port"] hc res' :: rest' /\
         calls_of FPreview (st_trace (preview_action env root options (init h w)).2) =
           [([config; get_prop m "port"], hc, res')]).
Proof.
  intros Hm. rewrite (preview_run env root options h w m Hm).
  cbv zeta.
  pose proof (lookup_alloc_first h {[ "open" := get_prop m "open" ]}
                (preview_config root m (fresh (dom h)))) as Hsv.
  set (sv := fresh (dom h)) in *.
  set (h1 := <[sv := {[ "open" := get_prop m "open" ]}]> h) in *.
  set (c := fresh (dom h1)) in *.
  set (hc := <[c := preview_config root m sv]> h1) in *.
  assert (Hc : hc !! c = Some (preview_config root m sv))
    by apply lookup_insert_eq.
  destruct (env_call env FResolveConfig _ hc w) as [[config|e] w1].
  - destruct (env_call env FPreview _ hc w1) as [[v|e] w2];
      cbn [fst snd st_trace app];
      eexists c, sv, hc, _, _;
      (split; [reflexivity|]); calls_simpl;
      (split; [reflexivity|]); do 2 (split; [eassumption || reflexivity|]);
      intros ? [= <-]; eexists _, _; split; reflexivity.
  - cbn [fst snd st_trace app];
      eexists c, sv, hc, _, _;
      (split; [reflexivity|]); calls_simpl;
      (split; [reflexivity|]); do 2 (split; [eassumption || reflexivity|]).
    intros ? [=].
Qed.

(** ** Errors *)

Ltac in_trace H :=
  cbn [In] in H;
  repeat (destruct H as [H|H]; [try discriminate H|]);
  try contradiction.

Ltac split_trace :=
  first [ by exists [] | by eexists [_] | by eexists [_; _] ].

(** C3, as the code has it.  In every run of an action, an error thrown by
    a call of a collaborator ([createServer], [listen], [build],
    [resolveConfig], [optimizeDeps], [preview]) is caught: the failed call
    is followed by the creation of one logger at the bag's [logLevel] and
    by one line given to its [error], which is [chalk.red] of the
    command's context string, a colon, a newline and the error's stack;
    it is the only line of the run, and the process exits with status 1.
    An error thrown by the load of the command's module is not caught: it
    leaves the action, nothing is logged and the process does not exit. *)
Theorem errors_of_calls_are_reported
    {W : Type} (env : Env W) (c : command) (root : value) (options : loc)
    (h : heap) (w : W) (m : obj) :
  h !! options = Some m ->
  let run := action env c root options (init h w) in
  let level := get_prop m "logLevel" in
  (forall f args hc e,
     In (EvCall f args hc (Err e)) (st_trace run.2) ->
     run.1 = Exited 1 /\
     (exists pre,
        st_trace run.2 =
          (pre ++ EvCall f args hc (Err e) :: report_events env c level e)%list /\
        error_lines pre = []) /\
     error_lines (st_trace run.2) =
       [(mkLogger level,
         chalk_red env (context_of c ++ ":" ++ nl ++ stack e))]) /\
  (forall specifier e,
     In (EvImport specifier (Err e)) (st_trace run.2) ->
     run.1 = Thrown e /\
     st_trace run.2 = [EvImport specifier (Err e)]).
Proof.
  intros Hm. cbv zeta.
  destruct c.
  - destruct (env_import env "./server" w) as [[[]|e0] w0] eqn:Himp.
    + cbn [action]. rewrite (serve_run env root options h w m Hm w0 Himp). cbv zeta.
      destruct (env_call env FCreateServer _ _ w0) as [[sv|e1] w1];
        [destruct (env_call env FListen _ _ w1) as [[v|e2] w2]|];
        cbn [fst snd st_trace app]; (split; [intros f args hc e H|intros sp e H]);
        in_trace H; injection H as <- <- <- <-;
        (split; [reflexivity|]); (split; [|reflexivity]);
        split_trace.
    + rewrite (import_fails_run env root options h w CmdServe _ e0 w0
                 ltac:(done) eq_refl Himp).
      cbn [fst snd st_trace]. split; [intros f args hc e H|intros sp e H];
        in_trace H. injection H as <- <-. done.
  - destruct (env_import env "./build" w) as [[[]|e0] w0] eqn:Himp.
    + cbn [action]. rewrite (build_run env root options h w m Hm w0 Himp). cbv zeta.
      destruct (env_call env FBuild _ _ w0) as [[v|e1] w1];
        cbn [fst snd st_trace app]; (split; [intros f args hc e H|intros sp e H]);
        in_trace H; injection H as <- <- <- <-;
        (split; [reflexivity|]); (split; [|reflexivity]);
        split_trace.
    + rewrite (import_fails_run env root options h w CmdBuild _ e0 w0
                 ltac:(done) eq_refl Himp).
      cbn [fst snd st_trace]. split; [intros f args hc e H|intros sp e H];
        in_trace H. injection H as <- <-. done.
  - destruct (env_import env "./optimizer" w) as [[[]|e0] w0] eqn:Himp.
    + cbn [action]. rewrite (optimize_run env root options h w m Hm w0 Himp). cbv zeta.
      destruct (env_call env FResolveConfig _ _ w0) as [[config|e1] w1];
        [destruct (env_call env FOptimizeDeps _ _ w1) as [[v|e2] w2]|];
        cbn [fst snd st_trace app]; (split; [intros f args hc e H|intros sp e H]);
        in_trace H; injection H as <- <- <- <-;
        (split; [reflexivity|]); (split; [|reflexivity]);
        split_trace.
    + rewrite (import_fails_run env root options h w CmdOptimize _ e0 w0
                 ltac:(done) eq_refl Himp).
      cbn [fst snd st_trace]. split; [intros f args hc e H|intros sp e H];
        in_trace H. injection H as <- <-. done.
  - cbn [action]. rewrite (preview_run env root options h w m Hm). cbv zeta.
    destruct (env_call env FResolveConfig _ _ w) as [[config|e1] w1];
      [destruct (env_call env FPreview _ _ w1) as [[v|e2] w2]|];
      cbn [fst snd st_trace app]; (split; [intros f args hc e H|intros sp e H]);
      in_trace H; injection H as <- <- <- <-;
      (split; [reflexivity|]); (split; [|reflexivity]);
      split_trace.
Qed.

(** C3 does not hold as it is worded where the module of the command does
    not load: the import of './server' stands before the [try] of the serve
    action, so its error leaves the action; no line is logged and the
    process does not exit with status 1. *)
Lemma serve_load_error_is_not_caught :
  (serve_action (sample_env (String.eqb "./server") (fun _ => false))
     (VStr ".") 1%positive (init sample_heap 0)).1 = Thrown sample_error /\
  st_trace
    (serve_action (sample_env (String.eqb "./server") (fun _ => false))
       (VStr ".") 1%positive (init sample_heap 0)).2 =
    [EvImport "./server" (Err sample_error)] /\
  error_lines
    (st_trace
       (serve_action (sample_env (String.eqb "./server") (fun _ => false))
          (VStr ".") 1%positive (init sample_heap 0)).2) = [].
Proof. vm_compute. repeat split; reflexivity. Qed.

(** ** The [minify] key *)

(** C8, as the code has it.  When the bag binds [minify] to [undefined],
    the object forwarded to [build] under [build] has the key [minify],
    bound to [undefined]: [cleanOptions] removes the global keys and no
    other.  A read of the property gives [undefined]. *)
Theorem build_forwards_undefined_minify
    {W : Type} (env : Env W) (root : value) (options : loc)
    (h : heap) (w w0 : W) (m : obj) :
  h !! options = Some m ->
  m !! "minify" = Some VUndefined ->
  env_import env "./build" w = (Ok tt, w0) ->
  exists (c r : loc) (hc : heap) (res : result value) (cfg forwarded : obj),
    calls_of FBuild (st_trace (build_action env root options (init h w)).2) =
      [([VRef c], hc, res)] /\
    hc !! c = Some cfg /\
    cfg !! "build" = Some (VRef r) /\
    hc !! r = Some forwarded /\
    forwarded !! "minify" = Some VUndefined /\
    get_prop forwarded "minify" = VUndefined.
Proof.
  intros Hm Hmin Himp.
  destruct (build_calls_build_once_aux env root options h w w0 m Hm Himp)
    as (c & r & hc & res & Hcalls & Hc & Hr).
  exists c, r, hc, res, (envelope root m "build" r), (without_keys global_keys m).
  assert (Hkey : without_keys global_keys m !! "minify" = Some VUndefined).
  { rewrite lookup_without_keys, Hmin.
    destruct (decide ("minify" ∈ global_keys)) as [Hin|_]; [|done].
    exfalso. apply list_elem_of_In in Hin. cbn [In global_keys] in Hin.
    intuition discriminate. }
  split; [exact Hcalls|]. split; [exact Hc|]. split; [reflexivity|].
  split; [exact Hr|]. split; [exact Hkey|].
  unfold get_prop. by rewrite Hkey.
Qed.

(** C8 does not hold as it is worded: on a bag with [minify: undefined]
    the object forwarded to [build] under [build] has the key [minify]. *)
Lemma build_minify_key_is_not_dropped :
  exists (c r : loc) (hc : heap) (res : result value) (cfg forwarded : obj),
    sample_heap !! 1%positive = Some sample_bag /\
    sample_bag !! "minify" = Some VUndefined /\
    calls_of FBuild
      (st_trace (build_action all_fine (VStr ".") 1%positive (init sample_heap 0)).2) =
      [([VRef c], hc, res)] /\
    hc !! c = Some cfg /\
    cfg !! "build" = Some (VRef r) /\
    hc !! r = Some forwarded /\
    forwarded !! "minify" <> None.
Proof.
  destruct (build_calls_build_once_aux all_fine (VStr ".") 1%positive
              sample_heap 0 1 sample_bag eq_refl eq_refl)
    as (c & r & hc & res & Hcalls & Hc & Hr).
  exists c, r, hc, res, (envelope (VStr ".") sample_bag "build" r),
    (without_keys global_keys sample_bag).
  split; [reflexivity|]. split; [reflexivity|].
  split; [exact Hcalls|]. split; [exact Hc|]. split; [reflexivity|].
  split; [exact Hr|]. vm_compute. discriminate.
Qed.

(** ** The mode given to [resolveConfig] *)


(** ** Module loading *)

(** C9 fails on the code: './preview' is imported in the head of the file,
    so the preview module is loaded when the program starts, before the
    command is looked at.  With collaborators that never fail, the run of
    any command loads it, the build command among them. *)
Theorem preview_module_is_loaded_at_startup (c : command) :
  loaded (st_trace (main all_fine c (VStr ".") 1%positive (init sample_heap 0)).2) =
  (["cac"; "chalk"; "./logger"; "."; "./preview"; "../../package.json"] ++
   match c with
   | CmdServe => ["./server"]
   | CmdBuild => ["./build"]
   | CmdOptimize => ["./optimizer"]
   | CmdPreview => []
   end)%list.
Proof. destruct c; vm_compute; reflexivity. Qed.

(** ** The theorems at the sample bag *)

Lemma cleanOptions_removes_exactly_global_keys_witness :
  sample_heap !! 1%positive = Some sample_bag /\
  exists (r : loc) (s' : state nat) (m' : obj),
    cleanOptions 1%positive (init sample_heap 0) = (Val r, s') /\
    st_heap s' !! r = Some m' /\
    (forall k, k ∈ global_keys -> m' !! k = None) /\
    (forall k, k ∉ global_keys -> m' !! k = sample_bag !! k).
Proof.
  split; [reflexivity|].
  exact (cleanOptions_removes_exactly_global_keys
           (init sample_heap 0) 1%positive sample_bag eq_refl).
Defined.

Lemma cleanOptions_idempotent_and_pure_witness :
  sample_heap !! 1%positive = Some sample_bag /\
  exists (r1 r2 : loc) (s1 s2 : state nat) (m1 : obj),
    cleanOptions 1%positive (init sample_heap 0) = (Val r1, s1) /\
    cleanOptions r1 s1 = (Val r2, s2) /\
    st_heap s1 !! r1 = Some m1 /\
    st_heap s2 !! r2 = Some m1 /\
    st_heap s1 !! 1%positive = Some sample_bag /\
    sample_heap !! r1 = None.
Proof.
  split; [reflexivity|].
  destruct (cleanOptions_idempotent_and_pure
              (init sample_heap 0) 1%positive sample_bag eq_refl)
    as (r1 & r2 & s1 & s2 & m1 & H1 & H2 & H3 & H4 & H5 & H6 & _).
  exists r1, r2, s1, s2, m1. repeat split; assumption.
Defined.

Lemma errors_of_calls_are_reported_witness :
  sample_heap !! 1%positive = Some sample_bag /\
  (action (sample_env (fun _ => false) (fun f => bool_decide (f = FListen)))
     CmdServe (VStr ".") 1%positive (init sample_heap 0)).1 = Exited 1 /\
  error_lines
    (st_trace
       (action (sample_env (fun _ => false) (fun f => bool_decide (f = FListen)))
          CmdServe (VStr ".") 1%positive (init sample_heap 0)).2) =
    [(mkLogger (VStr "warn"),
      "<red>error when starting dev server:" ++ nl ++
      "Error: listen EADDRINUSE at Server.listen</red>")].
Proof.
  split; [reflexivity|].
  pose proof (errors_of_calls_are_reported
                (sample_env (fun _ => false) (fun f => bool_decide (f = FListen)))
                CmdServe (VStr ".") 1%positive sample_heap 0 sample_bag eq_refl)
    as [Hcall _].
  cbv zeta in Hcall.
  destruct (Hcall FListen [VForeign 1]
              (<[3%positive := envelope (VStr ".") sample_bag "server" 2%positive]>
                 (<[2%positive := without_keys global_keys sample_bag]> sample_heap))
              sample_error) as (Hexit & _ & Hlines).
  - vm_compute. right. right. left. reflexivity.
  - split; [exact Hexit|exact Hlines].
Defined.

Lemma serve_calls_createServer_then_listen_witness :
  sample_heap !! 1%positive = Some sample_bag /\
  env_import all_fine "./server" 0 = (Ok tt, 1) /\
  exists (c r : loc) (hc : heap) (m' : obj) (res : result value)
         (rest : list event),
    st_trace (serve_action all_fine (VStr ".") 1%positive (init sample_heap 0)).2 =
      EvImport "./server" (Ok tt)
        :: EvCall FCreateServer [VRef c] hc res :: rest /\
    calls_of FCreateServer
      (st_trace (serve_action all_fine (VStr ".") 1%positive (init sample_heap 0)).2) =
      [([VRef c], hc, res)] /\
    hc !! c = Some (envelope (VStr ".") sample_bag "server" r) /\
    hc !! r = Some m' /\
    (cleanOptions 1%positive (init sample_heap 1)).1 = Val r /\
    st_heap (cleanOptions 1%positive (init sample_heap 1)).2 !! r = Some m' /\
    (forall server, res = Ok server ->
       exists res' rest',
         rest = EvCall FListen [server] hc res' :: rest' /\
         calls_of FListen
           (st_trace (serve_action all_fine (VStr ".") 1%positive (init sample_heap 0)).2) =
           [([server], hc, res')]).
Proof.
  split; [reflexivity|]. split; [reflexivity|].
  exact (serve_calls_createServer_then_listen all_fine (VStr ".") 1%positive
           sample_heap 0 1 sample_bag eq_refl eq_refl).
Defined.

Lemma build_calls_build_once_witness :
  sample_heap !! 1%positive = Some sample_bag /\
  env_import all_fine "./build" 0 = (Ok tt, 1) /\
  exists (c r : loc) (hc : heap) (m' : obj) (res : result value)
         (rest : list event),
    st_trace (build_action all_fine (VStr ".") 1%positive (init sample_heap 0)).2 =
      EvImport "./build" (Ok tt) :: EvCall FBuild [VRef c] hc res :: rest /\
    calls_of FBuild
      (st_trace (build_action all_fine (VStr ".") 1%positive (init sample_heap 0)).2) =
      [([VRef c], hc, res)] /\
    hc !! c = Some (envelope (VStr ".") sample_bag "build" r) /\
    hc !! r = Some m' /\
    (cleanOptions 1%positive (init sample_heap 1)).1 = Val r /\
    st_heap (cleanOptions 1%positive (init sample_heap 1)).2 !! r = Some m' /\
    (forall v, res = Ok v ->
       (build_action all_fine (VStr ".") 1%positive (init sample_heap 0)).1 = Val tt /\
       rest = []).
Proof.
  split; [reflexivity|]. split; [reflexivity|].
  exact (build_calls_build_once all_fine (VStr ".") 1%positive
           sample_heap 0 1 sample_bag eq_refl eq_refl).
Defined.

Lemma optimize_resolves_then_optimizes_witness :
  sample_heap !! 1%positive = Some sample_bag /\
  env_import all_fine "./optimizer" 0 = (Ok tt, 1) /\
  exists (c : loc) (hc : heap) (res : result value) (rest : list event),
    st_trace (optimize_action all_fine (VStr ".") 1%positive (init sample_heap 0)).2 =
      EvImport "./optimizer" (Ok tt)
        :: EvCall FResolveConfig [VRef c; VStr "build"; VStr "development"] hc res
        :: rest /\
    calls_of FResolveConfig
      (st_trace (optimize_action all_fine (VStr ".") 1%positive (init sample_heap 0)).2) =
      [([VRef c; VStr "build"; VStr "development"], hc, res)] /\
    hc !! c = Some (optimize_config (VStr ".") sample_bag) /\
    dom (optimize_config (VStr ".") sample_bag) =
      ({[ "root"; "base"; "configFile"; "logLevel" ]} : gset string) /\
    (forall config, res = Ok config ->
       exists res' rest',
         rest = EvCall FOptimizeDeps
                  [config; get_prop sample_bag "force"; VBool true] hc res'
                  :: rest' /\
         calls_of FOptimizeDeps
           (st_trace (optimize_action all_fine (VStr ".") 1%positive (init sample_heap 0)).2) =
           [([config; get_prop sample_bag "force"; VBool true], hc, res')]) /\
    (forall b, sample_bag !! "force" = Some (VBool b) ->
               get_prop sample_bag "force" = VBool b) /\
    (sample_bag !! "force" = None -> get_prop sample_bag "force" = VUndefined).
Proof.
  split; [reflexivity|]. split; [reflexivity|].
  exact (optimize_resolves_then_optimizes all_fine (VStr ".") 1%positive
           sample_heap 0 1 sample_bag eq_refl eq_refl).
Defined.

Lemma preview_resolves_then_previews_witness :
  sample_heap !! 1%positive = Some sample_bag /\
  exists (c sv : loc) (hc : heap) (res : result value) (rest : list event),
    st_trace (preview_action all_fine (VStr ".") 1%positive (init sample_heap 0)).2 =
      EvCall FResolveConfig [VRef c; VStr "serve"; VStr "development"] hc res
        :: rest /\
    calls_of FResolveConfig
      (st_trace (preview_action all_fine (VStr ".") 1%positive (init sample_heap 0)).2) =
      [([VRef c; VStr "serve"; VStr "development"], hc, res)] /\
    hc !! c = Some (preview_config (VStr ".") sample_bag sv) /\
    hc !! sv = Some {[ "open" := get_prop sample_bag "open" ]} /\
    (forall config, res = Ok config ->
       exists res' rest',
         rest = EvCall FPreview [config; get_prop sample_bag "port"] hc res'
                  :: rest' /\
         calls_of FPreview
           (st_trace (preview_action all_fine (VStr ".") 1%positive (init sample_heap 0)).2) =
           [([config; get_prop sample_bag "port"], hc, res')]).
Proof.
  split; [reflexivity|].
  exact (preview_resolves_then_previews all_fine (VStr ".") 1%positive
           sample_heap 0 sample_bag eq_refl).
Defined.

Lemma build_forwards_undefined_minify_witness :
  sample_heap !! 1%positive = Some sample_bag /\
  sample_bag !! "minify" = Some VUndefined /\
  env_import all_fine "./build" 0 = (Ok tt, 1) /\
  exists (c r : loc) (hc : heap) (res : result value) (cfg forwarded : obj),
    calls_of FBuild
      (st_trace (build_action all_fine (VStr ".") 1%positive (init sample_heap 0)).2) =
      [([VRef c], hc, res)] /\
    hc !! c = Some cfg /\
    cfg !! "build" = Some (VRef r) /\
    hc !! r = Some forwarded /\
    forwarded !! "minify" = Some VUndefined /\
    get_prop forwarded "minify" = VUndefined.
Proof.
  split; [reflexivity|]. split; [reflexivity|]. split; [reflexivity|].
  exact (build_forwards_undefined_minify all_fine (VStr ".") 1%positive
           sample_heap 0 1 sample_bag eq_refl eq_refl eq_refl).
Defined.


(** * Further properties *)

(** ** The option filter at its edges *)

Lemma without_keys_id_iff (ks : list string) (o : obj) :
  without_keys ks o = o <-> forall k, k ∈ ks -> o !! k = None.
Proof.
  split.
  - intros Heq k Hk. rewrite <- Heq, lookup_without_keys.
    by destruct (decide (k ∈ ks)).
  - intros Hnone. apply map_eq. intros k. rewrite lookup_without_keys.
    destruct (decide (k ∈ ks)) as [Hk|_]; [by rewrite Hnone|done].
Qed.

Lemma without_keys_empty_iff (ks : list string) (o : obj) :
  without_keys ks o = ∅ <-> forall k, is_Some (o !! k) -> k ∈ ks.
Proof.
  split.
  - intros Heq k [v Hv]. destruct (decide (k ∈ ks)) as [Hk|Hk]; [done|].
    assert (Hl : without_keys ks o !! k = Some v).
    { rewrite lookup_without_keys. by destruct (decide (k ∈ ks)). }
    rewrite Heq, lookup_empty in Hl. done.
  - intros Hall. apply map_eq. intros k. rewrite lookup_without_keys, lookup_empty.
    destruct (decide (k ∈ ks)) as [Hk|Hk]; [done|].
    destruct (o !! k) as [v|] eqn:Hv; [|done].
    exfalso. apply Hk, Hall. by rewrite Hv.
Qed.

Lemma without_keys_agree (ks : list string) (o1 o2 : obj) :
  (forall k, k ∉ ks -> o1 !! k = o2 !! k) ->
  without_keys ks o1 = without_keys ks o2.
Proof.
  intros Hag. apply map_eq. intros k. rewrite !lookup_without_keys.
  destruct (decide (k ∈ ks)); [done|by apply Hag].
Qed.

(** X1. [cleanOptions] returns an object equal to the bag exactly when the
    bag has no global key. *)
Theorem cleanOptions_copies_iff_no_global_key
    {W : Type} (s : state W) (options : loc) (m : obj) :
  st_heap s !! options = Some m ->
  exists (r : loc) (s' : state W),
    cleanOptions options s = (Val r, s') /\
    (st_heap s' !! r = Some m <-> forall k, k ∈ global_keys -> m !! k = None).
Proof.
  intros Hm. rewrite cleanOptions_run, Hm. cbn [default].
  eexists _, _. split; [reflexivity|]. cbn [st_heap].
  rewrite lookup_insert_eq.
  split.
  - intros [= Heq]. by apply without_keys_id_iff.
  - intros Hnone. f_equal. by apply without_keys_id_iff.
Qed.

(** X2. [cleanOptions] returns the empty object exactly when every key of
    the bag is a global key; the empty bag is one such bag. *)
Theorem cleanOptions_empty_iff_only_global_keys
    {W : Type} (s : state W) (options : loc) (m : obj) :
  st_heap s !! options = Some m ->
  exists (r : loc) (s' : state W),
    cleanOptions options s = (Val r, s') /\
    (st_heap s' !! r = Some ∅ <-> forall k, is_Some (m !! k) -> k ∈ global_keys).
Proof.
  intros Hm. rewrite cleanOptions_run, Hm. cbn [default].
  eexists _, _. split; [reflexivity|]. cbn [st_heap].
  rewrite lookup_insert_eq.
  split.
  - intros [= Heq]. by apply without_keys_empty_iff.
  - intros Hall. f_equal. by apply without_keys_empty_iff.
Qed.

(** X3. What [cleanOptions] returns does not depend on the global keys of
    the bag: two bags that agree on every other key give objects with the
    same content. *)
Theorem cleanOptions_ignores_global_keys
    {W : Type} (s1 s2 : state W) (options1 options2 : loc) (m1 m2 : obj) :
  st_heap s1 !! options1 = Some m1 ->
  st_heap s2 !! options2 = Some m2 ->
  (forall k, k ∉ global_keys -> m1 !! k = m2 !! k) ->
  exists (r1 r2 : loc) (s1' s2' : state W) (m' : obj),
    cleanOptions options1 s1 = (Val r1, s1') /\
    cleanOptions options2 s2 = (Val r2, s2') /\
    st_heap s1' !! r1 = Some m' /\
    st_heap s2' !! r2 = Some m'.
Proof.
  intros Hm1 Hm2 Hag. rewrite !cleanOptions_run, Hm1, Hm2. cbn [default].
  eexists _, _, _, _, _. split; [reflexivity|]. split; [reflexivity|].
  cbn [st_heap]. rewrite !lookup_insert_eq.
  split; [reflexivity|]. f_equal. symmetry. by apply without_keys_agree.
Qed.

(** X4. Two calls of [cleanOptions] on the same bag return two different
    objects, both different from the bag, with the same content: the
    results share nothing, and the bag is as it was after both. *)
Theorem cleanOptions_results_are_separate
    {W : Type} (s : state W) (options : loc) (m : obj) :
  st_heap s !! options = Some m ->
  exists (r1 r2 : loc) (s1 s2 : state W) (m' : obj),
    cleanOptions options s = (Val r1, s1) /\
    cleanOptions options s1 = (Val r2, s2) /\
    r1 <> r2 /\ r1 <> options /\ r2 <> options /\
    st_heap s2 !! r1 = Some m' /\
    st_heap s2 !! r2 = Some m' /\
    st_heap s2 !! options = Some m.
Proof.
  intros Hm.
  eexists _, _, _, _, _.
  split; [apply cleanOptions_run|]. split; [apply cleanOptions_run|].
  cbn [st_heap st_trace st_world].
  pose proof (lookup_alloc_old _ _ _ (without_keys global_keys m) Hm) as Hm1.
  rewrite Hm. cbn [default id]. rewrite Hm1. cbn [default id].
  set (h1 := <[fresh (dom (st_heap s)) := without_keys global_keys m]> (st_heap s))
    in *.
  assert (Hr1 : h1 !! fresh (dom (st_heap s)) = Some (without_keys global_keys m))
    by apply lookup_insert_eq.
  split; [intros Heq; symmetry in Heq; by eapply fresh_loc_ne in Heq|].
  split; [by eapply fresh_loc_ne|].
  split; [by eapply fresh_loc_ne|].
  split; [by apply lookup_alloc_old|].
  split; [apply lookup_insert_eq|].
  by apply lookup_alloc_old.
Qed.

(** ** What a run of an action can be *)

(** One goal per answer of the collaborators, each with the run written
    out. *)
Ltac run_import_cases Hm :=
  match goal with
  | |- context [action ?env CmdServe ?root ?options (init ?h ?w)] =>
      destruct (env_import env "./server" w) as [[[]|?] ?] eqn:?;
      [ match goal with
        | Himp : env_import env "./server" w = (Ok tt, ?w0) |- _ =>
            cbn [action];
            rewrite (serve_run env root options h w _ Hm w0 Himp)
        end
      | match goal with
        | Himp : env_import env "./server" w = (Err ?e, ?w0) |- _ =>
            rewrite (import_fails_run env root options h w CmdServe _ e w0
                       ltac:(done) eq_refl Himp)
        end ]
  | |- context [action ?env CmdBuild ?root ?options (init ?h ?w)] =>
      destruct (env_import env "./build" w) as [[[]|?] ?] eqn:?;
      [ match goal with
        | Himp : env_import env "./build" w = (Ok tt, ?w0) |- _ =>
            cbn [action];
            rewrite (build_run env root options h w _ Hm w0 Himp)
        end
      | match goal with
        | Himp : env_import env "./build" w = (Err ?e, ?w0) |- _ =>
            rewrite (import_fails_run env root options h w CmdBuild _ e w0
                       ltac:(done) eq_refl Himp)
        end ]
  | |- context [action ?env CmdOptimize ?root ?options (init ?h ?w)] =>
      destruct (env_import env "./optimizer" w) as [[[]|?] ?] eqn:?;
      [ match goal with
        | Himp : env_import env "./optimizer" w = (Ok tt, ?w0) |- _ =>
            cbn [action];
            rewrite (optimize_run env root options h w _ Hm w0 Himp)
        end
      | match goal with
        | Himp : env_import env "./optimizer" w = (Err ?e, ?w0) |- _ =>
            rewrite (import_fails_run env root options h w CmdOptimize _ e w0
                       ltac:(done) eq_refl Himp)
        end ]
  | |- context [action ?env CmdPreview ?root ?options (init ?h ?w)] =>
      cbn [action];
      rewrite (preview_run env root options h w _ Hm)
  end.

Ltac run_cases Hm :=
  run_import_cases Hm; cbv zeta;
  repeat match goal with
  | |- context [env_call ?env ?f ?a ?hh ?ww] =>
      destruct (env_call env f a hh ww) as [[?|?] ?]
  end;
  cbn [fst snd st_heap st_trace st_world app].

Lemma lookup_alloc_dom (h : heap) (l : loc) (o' : obj) :
  l ∈ dom h -> <[fresh (dom h) := o']> h !! l = h !! l.
Proof.
  intros [o Ho]%elem_of_dom. rewrite Ho. by apply lookup_alloc_old.
Qed.

Lemma lookup_alloc2_dom (h : heap) (l : loc) (o1 o2 : obj) :
  l ∈ dom h ->
  <[fresh (dom (<[fresh (dom h) := o1]> h)) := o2]> (<[fresh (dom h) := o1]> h)
    !! l = h !! l.
Proof.
  intros [o Ho]%elem_of_dom. rewrite Ho. by do 2 apply lookup_alloc_old.
Qed.

(** X5. An action changes no object that exists when it starts, whatever
    the collaborators answer: it reads the bag and builds new objects. *)
Theorem action_keeps_the_store
    {W : Type} (env : Env W) (c : command) (root : value) (options : loc)
    (h : heap) (w : W) (m : obj) :
  h !! options = Some m ->
  (forall l, l ∈ dom h ->
     st_heap (action env c root options (init h w)).2 !! l = h !! l) /\
  st_heap (action env c root options (init h w)).2 !! options = Some m.
Proof.
  intros Hm.
  assert (Hin : options ∈ dom h) by (apply elem_of_dom; eauto).
  destruct c; run_cases Hm;
    (split; [intros l Hl|rewrite <- Hm]);
    first [ reflexivity | by apply lookup_alloc2_dom | by apply lookup_alloc_dom ].
Qed.

(** X6. A run of an action returns exactly when no load and no call
    failed, and then no logger is created and nothing is logged; when a
    run exits, the status is 1, with one logger created and one line
    logged before. *)
Theorem action_returns_iff_nothing_failed
    {W : Type} (env : Env W) (c : command) (root : value) (options : loc)
    (h : heap) (w : W) (m : obj) :
  h !! options = Some m ->
  let run := action env c root options (init h w) in
  (run.1 = Val tt <->
   forallb (fun ev => negb (failed ev)) (st_trace run.2) = true) /\
  (run.1 = Val tt ->
   error_lines (st_trace run.2) = [] /\ loggers_created (st_trace run.2) = []) /\
  (forall n, run.1 = Exited n ->
     n = 1%Z /\
     length (error_lines (st_trace run.2)) = 1 /\
     length (loggers_created (st_trace run.2)) = 1).
Proof.
  intros Hm. cbv zeta.
  destruct c; run_cases Hm;
    (split; [split; [try discriminate; reflexivity|try discriminate; reflexivity]|]);
    (split; [try discriminate; intros _; split; reflexivity|]);
    intros n Hn; try discriminate Hn; injection Hn as <-;
    repeat split; reflexivity.
Qed.

(** X7. The second function of an action ([listen], [optimizeDeps],
    [preview]) is called only when the first ([createServer],
    [resolveConfig]) has returned, and its first argument is then what
    the first returned. *)
Theorem second_call_needs_the_first
    {W : Type} (env : Env W) (c : command) (root : value) (options : loc)
    (h : heap) (w : W) (m : obj) (f1 f2 : extfn) :
  h !! options = Some m ->
  collaborators_of c = [f1; f2] ->
  forall args hc res,
    In (args, hc, res)
       (calls_of f2 (st_trace (action env c root options (init h w)).2)) ->
    exists args1 hc1 v,
      calls_of f1 (st_trace (action env c root options (init h w)).2) =
        [(args1, hc1, Ok v)] /\
      head args = Some v.
Proof.
  intros Hm Hfs args hc res.
  destruct c; try discriminate Hfs;
    injection Hfs as <- <-; run_cases Hm; calls_simpl;
    intros Hin; in_trace Hin; injection Hin as <- <- <-;
    eexists _, _, _; split; reflexivity.
Qed.

(** X8. An action calls only its own functions, each at most once: the
    build action resolves no config and starts no server, and so on. *)
Theorem action_calls_only_its_functions
    {W : Type} (env : Env W) (c : command) (root : value) (options : loc)
    (h : heap) (w : W) (m : obj) (f : extfn) :
  h !! options = Some m ->
  (~ In f (collaborators_of c) ->
   calls_of f (st_trace (action env c root options (init h w)).2) = []) /\
  length (calls_of f (st_trace (action env c root options (init h w)).2)) <= 1.
Proof.
  intros Hm.
  destruct c; run_cases Hm; destruct f; calls_simpl;
    (split; [intros Hn; try reflexivity; exfalso; apply Hn; cbn; tauto
            |cbn [length]; lia]).
Qed.

Lemma action_loads_own_module_aux
    {W : Type} (env : Env W) (c : command) (root : value) (options : loc)
    (h : heap) (w : W) (m : obj) :
  h !! options = Some m ->
  loaded (st_trace (action env c root options (init h w)).2) = own_module c.
Proof.
  intros Hm. destruct c; run_cases Hm; reflexivity.
Qed.

(** X9. Whatever the collaborators answer, the serve, build and optimize
    actions try to load their own module once and no other; the preview
    action loads none. *)
Theorem action_loads_its_own_module
    {W : Type} (env : Env W) (c : command) (root : value) (options : loc)
    (h : heap) (w : W) (m : obj) :
  h !! options = Some m ->
  loaded (st_trace (action env c root options (init h w)).2) = own_module c /\
  (forall specifier res,
     In (EvImport specifier res)
        (st_trace (action env c root options (init h w)).2) ->
     In specifier (own_module c)).
Proof.
  intros Hm. split; [by eapply action_loads_own_module_aux|].
  destruct c; run_cases Hm; intros sp res Hin; in_trace Hin;
    injection Hin as <- _; cbn; tauto.
Qed.

(** ** What reaches the dev server and the builder *)

Lemma alloc2_facts (h : heap) (options : loc) (m o1 o2 : obj) :
  h !! options = Some m ->
  let r := fresh (dom h) in
  let h1 := <[r := o1]> h in
  let l := fresh (dom h1) in
  let hc := <[l := o2]> h1 in
  hc !! l = Some o2 /\ hc !! r = Some o1 /\ hc !! options = Some m /\
  r <> options /\ l <> options /\ l <> r.
Proof.
  intros Hm r h1 l hc.
  assert (Hr1 : h1 !! r = Some o1) by apply lookup_insert_eq.
  assert (Hm1 : h1 !! options = Some m) by by apply lookup_alloc_old.
  split; [apply lookup_insert_eq|].
  split; [by apply lookup_alloc_old|].
  split; [by apply lookup_alloc_old|].
  split; [by eapply fresh_loc_ne|].
  split; by eapply fresh_loc_ne.
Qed.

(** X10. The object that the serve action passes under [server], and the
    build action under [build], is a new object, neither the bag nor the
    config object; it has no global key and binds every other key of the
    bag as the bag does.  The bag itself still has all its keys at the
    call. *)
Theorem serve_and_build_forward_the_other_keys
    {W : Type} (env : Env W) (c : command) (root : value) (options : loc)
    (h : heap) (w : W) (m : obj) :
  h !! options = Some m ->
  c = CmdServe \/ c = CmdBuild ->
  Forall
    (fun call : list value * heap * result value =>
       exists (l r : loc) (cfg forwarded : obj),
         call.1.1 = [VRef l] /\
         call.1.2 !! l = Some cfg /\
         cfg !! (match c with CmdServe => "server" | _ => "build" end) =
           Some (VRef r) /\
         call.1.2 !! r = Some forwarded /\
         (forall k, k ∈ global_keys -> forwarded !! k = None) /\
         (forall k, k ∉ global_keys -> forwarded !! k = m !! k) /\
         r <> options /\ l <> options /\ l <> r /\
         call.1.2 !! options = Some m)
    (calls_of (match c with CmdServe => FCreateServer | _ => FBuild end)
       (st_trace (action env c root options (init h w)).2)).
Proof.
  intros Hm [-> | ->].
  - pose proof (alloc2_facts h options m (without_keys global_keys m)
                  (envelope root m "server" (fresh (dom h))) Hm) as Hf.
    cbv zeta in Hf. destruct Hf as (Hl & Hr & Ho & Hne1 & Hne2 & Hne3).
    run_cases Hm; calls_simpl; repeat constructor;
      eexists _, _, _, _; cbn [fst snd];
      (split; [reflexivity|]); (split; [exact Hl|]); (split; [reflexivity|]);
      (split; [exact Hr|]);
      (split; [intros k Hk; rewrite lookup_without_keys; by case_decide|]);
      (split; [intros k Hk; rewrite lookup_without_keys; by case_decide|]);
      done.
  - pose proof (alloc2_facts h options m (without_keys global_keys m)
                  (envelope root m "build" (fresh (dom h))) Hm) as Hf.
    cbv zeta in Hf. destruct Hf as (Hl & Hr & Ho & Hne1 & Hne2 & Hne3).
    run_cases Hm; calls_simpl; repeat constructor;
      eexists _, _, _, _; cbn [fst snd];
      (split; [reflexivity|]); (split; [exact Hl|]); (split; [reflexivity|]);
      (split; [exact Hr|]);
      (split; [intros k Hk; rewrite lookup_without_keys; by case_decide|]);
      (split; [intros k Hk; rewrite lookup_without_keys; by case_decide|]);
      done.
Qed.

(** ** The options that no action reads *)

Ltac not_unread :=
  let H := fresh in
  intros H; apply list_elem_of_In in H; cbn [In unread_keys] in H;
  intuition discriminate.

Lemma unread_keys_are_global (k : string) : k ∈ unread_keys -> k ∈ global_keys.
Proof.
  rewrite !list_elem_of_In. cbn [In unread_keys global_keys]. intuition.
Qed.

Section Agree.
Context (m1 m2 : obj).
Hypothesis Hag : forall k, k ∉ unread_keys -> m1 !! k = m2 !! k.

Lemma get_prop_agree (k : string) :
  k ∉ unread_keys -> get_prop m1 k = get_prop m2 k.
Proof. intros Hk. unfold get_prop. by rewrite Hag. Qed.

Lemma envelope_agree (root : value) (field : string) (r : loc) :
  envelope root m1 field r = envelope root m2 field r.
Proof.
  unfold envelope.
  rewrite (get_prop_agree "base"), (get_prop_agree "mode"),
    (get_prop_agree "config"), (get_prop_agree "logLevel"),
    (get_prop_agree "clearScreen"); [done|not_unread..].
Qed.

Lemma optimize_config_agree (root : value) :
  optimize_config root m1 = optimize_config root m2.
Proof.
  unfold optimize_config.
  rewrite (get_prop_agree "base"), (get_prop_agree "config"),
    (get_prop_agree "logLevel"); [done|not_unread..].
Qed.

Lemma preview_config_agree (root : value) (sv : loc) :
  preview_config root m1 sv = preview_config root m2 sv.
Proof.
  unfold preview_config.
  rewrite (get_prop_agree "base"), (get_prop_agree "config"),
    (get_prop_agree "logLevel"); [done|not_unread..].
Qed.

Lemma cleaned_agree :
  without_keys global_keys m1 = without_keys global_keys m2.
Proof.
  apply without_keys_agree. intros k Hk. apply Hag.
  intros Hu. by apply Hk, unread_keys_are_global.
Qed.
End Agree.

Ltac same_stores :=
  let l := fresh "l" in
  let Hl := fresh "Hl" in
  unfold stores_agree_off;
  intros l Hl; rewrite !lookup_insert; repeat case_decide; subst;
  try done; try congruence.

(** The same call in two stores that agree but for the bag: one answer. *)
Ltac merge_calls Hblind :=
  repeat match goal with
  | |- context [env_call ?env ?f ?a ?h1 ?ww] =>
      match goal with
      | |- context [env_call env f a ?h2 ww] =>
          lazymatch h1 with h2 => fail | _ => idtac end;
          rewrite (Hblind f a h1 h2 ww) by same_stores
      end
  end.

Ltac same_runs Hblind :=
  repeat (merge_calls Hblind;
          match goal with
          | |- context [env_call ?env ?f ?a ?hh ?ww] =>
              destruct (env_call env f a hh ww) as [[?|?] ?]
          end);
  cbn [fst snd st_heap st_trace st_world app report_events];
  (split; [reflexivity|]);
  (split; [repeat match goal with |- Forall2 _ _ _ => constructor end;
           cbn [events_agree_off];
           repeat match goal with |- _ /\ _ => split end;
           try reflexivity; same_stores|]);
  (split; [reflexivity|]); same_stores.

(** X11. What the bag binds the keys [--], [debug], [d], [filter], [f],
    [c], [root], [r], [m] and [l] to, and whether it has them, changes
    nothing that an action shows to the outside.  Take collaborators
    whose answers do not depend on the bag object itself, and two bags
    that agree on every other key: the two runs of an action end the same
    way and in the same world, and their traces agree event by event: the
    same loads with the same results, the same calls with the same
    arguments and results, the same logger level and line, and at every
    call two stores that hold the same objects but for the bag. *)
Theorem unread_options_change_no_event
    {W : Type} (env : Env W) (c : command) (root : value) (options : loc)
    (h : heap) (w : W) (m1 m2 : obj) :
  (forall k, k ∉ unread_keys -> m1 !! k = m2 !! k) ->
  (forall f args h1 h2 w',
     stores_agree_off options h1 h2 ->
     env_call env f args h1 w' = env_call env f args h2 w') ->
  let run1 := action env c root options (init (<[options := m1]> h) w) in
  let run2 := action env c root options (init (<[options := m2]> h) w) in
  run1.1 = run2.1 /\
  Forall2 (events_agree_off options) (st_trace run1.2) (st_trace run2.2) /\
  st_world run1.2 = st_world run2.2 /\
  stores_agree_off options (st_heap run1.2) (st_heap run2.2).
Proof.
  intros Hag Hblind. cbv zeta.
  assert (Hm1 : <[options := m1]> h !! options = Some m1)
    by apply lookup_insert_eq.
  assert (Hm2 : <[options := m2]> h !! options = Some m2)
    by apply lookup_insert_eq.
  destruct c.
  - destruct (env_import env "./server" w) as [[[]|e0] w0] eqn:Himp.
    + cbn [action].
      rewrite (serve_run env root options _ w m1 Hm1 w0 Himp),
        (serve_run env root options _ w m2 Hm2 w0 Himp).
      cbv zeta. rewrite !dom_insert_L.
      rewrite (envelope_agree m1 m2 Hag), (cleaned_agree m1 m2 Hag),
        (get_prop_agree m1 m2 Hag "logLevel") by not_unread.
      same_runs Hblind.
    + rewrite (import_fails_run env root options (<[options := m1]> h) w
                 CmdServe _ e0 w0 ltac:(done) eq_refl Himp),
        (import_fails_run env root options (<[options := m2]> h) w
           CmdServe _ e0 w0 ltac:(done) eq_refl Himp).
      same_runs Hblind.
  - destruct (env_import env "./build" w) as [[[]|e0] w0] eqn:Himp.
    + cbn [action].
      rewrite (build_run env root options _ w m1 Hm1 w0 Himp),
        (build_run env root options _ w m2 Hm2 w0 Himp).
      cbv zeta. rewrite !dom_insert_L.
      rewrite (envelope_agree m1 m2 Hag), (cleaned_agree m1 m2 Hag),
        (get_prop_agree m1 m2 Hag "logLevel") by not_unread.
      same_runs Hblind.
    + rewrite (import_fails_run env root options (<[options := m1]> h) w
                 CmdBuild _ e0 w0 ltac:(done) eq_refl Himp),
        (import_fails_run env root options (<[options := m2]> h) w
           CmdBuild _ e0 w0 ltac:(done) eq_refl Himp).
      same_runs Hblind.
  - destruct (env_import env "./optimizer" w) as [[[]|e0] w0] eqn:Himp.
    + cbn [action].
      rewrite (optimize_run env root options _ w m1 Hm1 w0 Himp),
        (optimize_run env root options _ w m2 Hm2 w0 Himp).
      cbv zeta. rewrite !dom_insert_L.
      rewrite (optimize_config_agree m1 m2 Hag),
        (get_prop_agree m1 m2 Hag "logLevel"),
        (get_prop_agree m1 m2 Hag "force") by not_unread.
      same_runs Hblind.
    + rewrite (import_fails_run env root options (<[options := m1]> h) w
                 CmdOptimize _ e0 w0 ltac:(done) eq_refl Himp),
        (import_fails_run env root options (<[options := m2]> h) w
           CmdOptimize _ e0 w0 ltac:(done) eq_refl Himp).
      same_runs Hblind.
  - cbn [action].
    rewrite (preview_run env root options _ w m1 Hm1),
      (preview_run env root options _ w m2 Hm2).
    cbv zeta. rewrite !dom_insert_L.
    rewrite (preview_config_agree m1 m2 Hag),
      (get_prop_agree m1 m2 Hag "open"),
      (get_prop_agree m1 m2 Hag "logLevel"),
      (get_prop_agree m1 m2 Hag "port") by not_unread.
    same_runs Hblind.
Qed.

(** ** The actions inside the program *)

Section Frame.
Context {W : Type} (env : Env W).

Lemma shift_shift {A : Type} (t t' : list event) (r : outcome A * state W) :
  shift t (shift t' r) = shift (t ++ t') r.
Proof. unfold shift. cbn [fst snd st_heap st_trace st_world]. by rewrite app_assoc. Qed.

Lemma framed_ret {A : Type} (a : A) : framed (W := W) (ret a).
Proof. intros h t w. unfold ret, shift. cbn. by rewrite app_nil_r. Qed.

Lemma framed_process_exit {A : Type} (n : Z) :
  framed (W := W) (process_exit (A := A) n).
Proof. intros h t w. unfold process_exit, shift. cbn. by rewrite app_nil_r. Qed.

Lemma framed_emit (ev : event) : framed (W := W) (emit ev).
Proof. intros h t w. reflexivity. Qed.

Lemma framed_read_obj (l : loc) : framed (W := W) (read_obj l).
Proof. intros h t w. unfold read_obj, shift. cbn. by rewrite app_nil_r. Qed.

Lemma framed_read_prop (l : loc) (k : string) : framed (W := W) (read_prop l k).
Proof. intros h t w. unfold read_prop, shift. cbn. by rewrite app_nil_r. Qed.

Lemma framed_alloc (o : obj) : framed (W := W) (alloc o).
Proof. intros h t w. unfold alloc, shift. cbn. by rewrite app_nil_r. Qed.

Lemma framed_delete_prop (l : loc) (k : string) :
  framed (W := W) (delete_prop l k).
Proof. intros h t w. unfold delete_prop, shift. cbn. by rewrite app_nil_r. Qed.

Lemma framed_import (specifier : string) : framed (import_ env specifier).
Proof.
  intros h t w. unfold import_, shift. cbn [st_heap st_trace st_world].
  destruct (env_import env specifier w) as [[[]|e] w']; reflexivity.
Qed.

Lemma framed_call (f : extfn) (args : list value) : framed (call env f args).
Proof.
  intros h t w. unfold call, shift. cbn [st_heap st_trace st_world].
  destruct (env_call env f args h w) as [[v|e] w']; reflexivity.
Qed.

Lemma framed_bind {A B : Type} (c : M W A) (k : A -> M W B) :
  framed c -> (forall a, framed (k a)) -> framed (bind c k).
Proof.
  intros Hc Hk h t w. unfold bind. rewrite Hc.
  destruct (c (mkState h [] w)) as [[a|e|n] [h' t' w']];
    unfold shift at 1; cbn [fst snd st_heap st_trace st_world]; try reflexivity.
  rewrite (Hk a h' (t ++ t')%list w'), (Hk a h' t' w'). by rewrite shift_shift.
Qed.

Lemma framed_try_catch {A : Type} (body : M W A) (handler : Error -> M W A) :
  framed body -> (forall e, framed (handler e)) -> framed (try_catch body handler).
Proof.
  intros Hb Hh h t w. unfold try_catch. rewrite Hb.
  destruct (body (mkState h [] w)) as [[a|e|n] [h' t' w']];
    unfold shift at 1; cbn [fst snd st_heap st_trace st_world]; try reflexivity.
  rewrite (Hh e h' (t ++ t')%list w'), (Hh e h' t' w'). by rewrite shift_shift.
Qed.
End Frame.

Ltac frame_step :=
  lazymatch goal with
  | |- forall _, _ => intro
  | |- framed (bind _ _) => simple apply framed_bind
  | |- framed (try_catch _ _) => simple apply framed_try_catch
  | |- framed (ret _) => simple apply framed_ret
  | |- framed (process_exit _) => simple apply framed_process_exit
  | |- framed (emit _) => simple apply framed_emit
  | |- framed (read_obj _) => simple apply framed_read_obj
  | |- framed (read_prop _ _) => simple apply framed_read_prop
  | |- framed (alloc _) => simple apply framed_alloc
  | |- framed (delete_prop _ _) => simple apply framed_delete_prop
  | |- framed (import_ _ _) => simple apply framed_import
  | |- framed (call _ _ _) => simple apply framed_call
  | |- framed ((fun _ => _) _) => cbv beta
  end.

Ltac frame := repeat frame_step.

Lemma framed_cleanOptions {W : Type} (options : loc) :
  framed (W := W) (cleanOptions options).
Proof. unfold cleanOptions, spread. frame. Qed.

Lemma framed_action {W : Type} (env : Env W) (c : command)
    (root : value) (options : loc) :
  framed (action env c root options).
Proof.
  destruct c; cbn [action];
    unfold serve_action, build_action, optimize_action, preview_action,
      createLogger, logger_error;
    repeat first [ simple apply framed_cleanOptions | frame_step ].
Qed.

Lemma import_in_action_aux
    {W : Type} (env : Env W) (c : command) (root : value) (options : loc)
    (h : heap) (w : W) (m : obj) (specifier : string) (res : result unit) :
  h !! options = Some m ->
  In (EvImport specifier res)
     (st_trace (action env c root options (init h w)).2) ->
  In specifier (own_module c).
Proof.
  intros Hm. destruct c; run_cases Hm; intros Hin; in_trace Hin;
    injection Hin as <- _; cbn; tauto.
Qed.

Lemma calls_of_app (f : extfn) (t1 t2 : list event) :
  calls_of f (t1 ++ t2) = (calls_of f t1 ++ calls_of f t2)%list.
Proof.
  induction t1 as [|[| g ? ? ? | |] t1 IH]; cbn [calls_of app]; try done.
  destruct (decide (g = f)); cbn [app]; by rewrite ?IH.
Qed.

Lemma loaded_app (t1 t2 : list event) :
  loaded (t1 ++ t2) = (loaded t1 ++ loaded t2)%list.
Proof.
  induction t1 as [|[] t1 IH]; cbn [loaded app]; by rewrite ?IH.
Qed.

(** One goal per module of the head that fails to load, and one for the
    run in which all of them load; there the action starts with the six
    loads in its trace. *)
Ltac main_cases :=
  cbv [main load_all static_imports bind import_ ret init
       st_heap st_trace st_world app];
  repeat match goal with
  | |- context [env_import ?env ?sp ?ww] =>
      destruct (env_import env sp ww) as [[[]|?] ?]; cbv beta iota
  end.

(** X13. The modules the program loads, in order, are a beginning of the
    list [cac], [chalk], [./logger], [.], [./preview], [package.json] and
    then the module of the selected action; they are the whole list
    unless the program ends with the error of a load.  So [./server],
    [./build] and [./optimizer] are each loaded by their own command
    only, and after the head of the file. *)
Theorem main_loads_modules_in_order
    {W : Type} (env : Env W) (c : command) (root : value) (options : loc)
    (h : heap) (w : W) (m : obj) :
  h !! options = Some m ->
  let run := main env c root options (init h w) in
  loaded (st_trace run.2) `prefix_of` (startup_modules ++ own_module c)%list /\
  ((forall e, run.1 <> Thrown e) ->
   loaded (st_trace run.2) = (startup_modules ++ own_module c)%list) /\
  (forall c' specifier,
     In specifier (own_module c') ->
     In specifier (loaded (st_trace run.2)) ->
     c' = c).
Proof.
  intros Hm. cbv zeta.
  assert (Hown : forall c' specifier,
            In specifier (own_module c') ->
            In specifier (startup_modules ++ own_module c)%list -> c' = c).
  { intros c' sp Hc' Hin.
    destruct c'; cbn [own_module In] in Hc'; try contradiction;
      destruct Hc' as [<-|[]]; destruct c; try reflexivity;
      exfalso; vm_compute in Hin; intuition discriminate. }
  assert (Hpre : forall l1 l2 : list string,
            l1 `prefix_of` l2 -> forall x, In x l1 -> In x l2).
  { intros l1 l2 [k ->] x Hx. apply in_or_app. by left. }
  assert (Hmain :
    loaded (st_trace (main env c root options (init h w)).2)
      `prefix_of` (startup_modules ++ own_module c)%list /\
    ((forall e, (main env c root options (init h w)).1 <> Thrown e) ->
     loaded (st_trace (main env c root options (init h w)).2) =
       (startup_modules ++ own_module c)%list)).
  { main_cases.
    1: { rewrite (framed_action env c root options). unfold shift.
         cbn [fst snd st_trace]. rewrite loaded_app.
         change (mkState h [] ?w') with (init h w').
         rewrite (action_loads_own_module_aux env c root options h _ m Hm).
         split; [reflexivity|]. intros _. reflexivity. }
    all: cbn [fst snd st_trace loaded]; split;
      [ eexists; reflexivity
      | intros Hne; exfalso; by eapply Hne ]. }
  destruct Hmain as [Hp Hfull].
  split; [exact Hp|]. split; [exact Hfull|].
  intros c' sp Hc' Hin. eapply Hown; [exact Hc'|]. by eapply Hpre.
Qed.

(** X14. When a module of the head of the file, or [package.json], fails
    to load, the program ends with that error before any action starts:
    no collaborator is called, no logger is created, nothing is logged. *)
Theorem startup_failure_ends_the_program
    {W : Type} (env : Env W) (c : command) (root : value) (options : loc)
    (h : heap) (w : W) (m : obj) (specifier : string) (e : Error) :
  h !! options = Some m ->
  In specifier startup_modules ->
  In (EvImport specifier (Err e))
     (st_trace (main env c root options (init h w)).2) ->
  (main env c root options (init h w)).1 = Thrown e /\
  (forall f, calls_of f (st_trace (main env c root options (init h w)).2) = []) /\
  loggers_created (st_trace (main env c root options (init h w)).2) = [] /\
  error_lines (st_trace (main env c root options (init h w)).2) = [].
Proof.
  intros Hm Hsp. main_cases.
  1: { rewrite (framed_action env c root options). unfold shift.
       cbn [fst snd st_trace]. intros Hin. exfalso.
       apply in_app_or in Hin as [Hin|Hin]; [by in_trace Hin|].
       change (mkState h [] ?w') with (init h w') in Hin.
       apply (import_in_action_aux env c root options h _ m _ _ Hm) in Hin.
       destruct c; cbn [own_module In] in Hin; try contradiction;
         destruct Hin as [<-|[]]; vm_compute in Hsp; intuition discriminate. }
  all: cbn [fst snd st_trace]; intros Hin; in_trace Hin;
    injection Hin as <- <-; repeat split; reflexivity.
Qed.

(** ** The further properties at the sample bag *)

Lemma cleanOptions_copies_iff_no_global_key_witness :
  sample_heap !! 1%positive = Some sample_bag /\
  exists (r : loc) (s' : state nat),
    cleanOptions 1%positive (init sample_heap 0) = (Val r, s') /\
    (st_heap s' !! r = Some sample_bag <->
     forall k, k ∈ global_keys -> sample_bag !! k = None).
Proof.
  split; [reflexivity|].
  exact (cleanOptions_copies_iff_no_global_key
           (init sample_heap 0) 1%positive sample_bag eq_refl).
Defined.

Lemma cleanOptions_empty_iff_only_global_keys_witness :
  sample_heap !! 1%positive = Some sample_bag /\
  exists (r : loc) (s' : state nat),
    cleanOptions 1%positive (init sample_heap 0) = (Val r, s') /\
    (st_heap s' !! r = Some ∅ <->
     forall k, is_Some (sample_bag !! k) -> k ∈ global_keys).
Proof.
  split; [reflexivity|].
  exact (cleanOptions_empty_iff_only_global_keys
           (init sample_heap 0) 1%positive sample_bag eq_refl).
Defined.

Lemma sample_bags_agree :
  forall k, k ∉ unread_keys ->
    sample_bag !! k = other_bag !! k.
Proof.
  intros k Hk.
  assert (k <> "root") by (intros ->; apply Hk; apply list_elem_of_In; cbn; tauto).
  assert (k <> "l") by (intros ->; apply Hk; apply list_elem_of_In; cbn; tauto).
  unfold other_bag. by rewrite lookup_insert_ne, lookup_delete_ne.
Defined.

Lemma cleanOptions_ignores_global_keys_witness :
  sample_heap !! 1%positive = Some sample_bag /\
  ({[ 1%positive := other_bag ]} : heap)
    !! 1%positive = Some (other_bag) /\
  (forall k, k ∉ global_keys ->
     sample_bag !! k = other_bag !! k) /\
  exists (r1 r2 : loc) (s1' s2' : state nat) (m' : obj),
    cleanOptions 1%positive (init sample_heap 0) = (Val r1, s1') /\
    cleanOptions 1%positive
      (init {[ 1%positive := other_bag ]} 0)
      = (Val r2, s2') /\
    st_heap s1' !! r1 = Some m' /\
    st_heap s2' !! r2 = Some m'.
Proof.
  assert (Hag : forall k, k ∉ global_keys ->
            sample_bag !! k =
            other_bag !! k).
  { intros k Hk. apply sample_bags_agree. intros Hu.
    by apply Hk, unread_keys_are_global. }
  split; [reflexivity|]. split; [reflexivity|]. split; [exact Hag|].
  exact (cleanOptions_ignores_global_keys
           (init sample_heap 0) (init {[ 1%positive := other_bag ]} 0)
           1%positive 1%positive sample_bag other_bag eq_refl eq_refl Hag).
Defined.

Lemma cleanOptions_results_are_separate_witness :
  sample_heap !! 1%positive = Some sample_bag /\
  exists (r1 r2 : loc) (s1 s2 : state nat) (m' : obj),
    cleanOptions 1%positive (init sample_heap 0) = (Val r1, s1) /\
    cleanOptions 1%positive s1 = (Val r2, s2) /\
    r1 <> r2 /\ r1 <> 1%positive /\ r2 <> 1%positive /\
    st_heap s2 !! r1 = Some m' /\
    st_heap s2 !! r2 = Some m' /\
    st_heap s2 !! 1%positive = Some sample_bag.
Proof.
  split; [reflexivity|].
  exact (cleanOptions_results_are_separate
           (init sample_heap 0) 1%positive sample_bag eq_refl).
Defined.

Lemma action_keeps_the_store_witness :
  sample_heap !! 1%positive = Some sample_bag /\
  (forall l, l ∈ dom sample_heap ->
     st_heap (action all_fine CmdBuild (VStr ".") 1%positive
                (init sample_heap 0)).2 !! l = sample_heap !! l) /\
  st_heap (action all_fine CmdBuild (VStr ".") 1%positive
             (init sample_heap 0)).2 !! 1%positive = Some sample_bag.
Proof.
  split; [reflexivity|].
  exact (action_keeps_the_store all_fine CmdBuild (VStr ".") 1%positive
           sample_heap 0 sample_bag eq_refl).
Defined.

Lemma action_returns_iff_nothing_failed_witness :
  sample_heap !! 1%positive = Some sample_bag /\
  (action (sample_env (fun _ => false) (fun f => bool_decide (f = FBuild)))
     CmdBuild (VStr ".") 1%positive (init sample_heap 0)).1 = Exited 1 /\
  length
    (error_lines
       (st_trace
          (action (sample_env (fun _ => false) (fun f => bool_decide (f = FBuild)))
             CmdBuild (VStr ".") 1%positive (init sample_heap 0)).2)) = 1.
Proof.
  split; [reflexivity|]. split; [reflexivity|].
  pose proof (action_returns_iff_nothing_failed
                (sample_env (fun _ => false) (fun f => bool_decide (f = FBuild)))
                CmdBuild (VStr ".") 1%positive sample_heap 0 sample_bag eq_refl)
    as (_ & _ & Hexit).
  exact (proj1 (proj2 (Hexit 1%Z eq_refl))).
Defined.

Lemma second_call_needs_the_first_witness :
  sample_heap !! 1%positive = Some sample_bag /\
  collaborators_of CmdServe = [FCreateServer; FListen] /\
  exists args1 hc1 v,
    calls_of FCreateServer
      (st_trace (action all_fine CmdServe (VStr ".") 1%positive
                   (init sample_heap 0)).2) = [(args1, hc1, Ok v)] /\
    head [VForeign 1] = Some v.
Proof.
  split; [reflexivity|]. split; [reflexivity|].
  apply (second_call_needs_the_first all_fine CmdServe (VStr ".") 1%positive
           sample_heap 0 sample_bag FCreateServer FListen eq_refl eq_refl
           [VForeign 1]
           (<[3%positive := envelope (VStr ".") sample_bag "server" 2%positive]>
              (<[2%positive := without_keys global_keys sample_bag]> sample_heap))
           (Ok (VForeign 2))).
  vm_compute. left. reflexivity.
Defined.

Lemma action_calls_only_its_functions_witness :
  sample_heap !! 1%positive = Some sample_bag /\
  (~ In FResolveConfig (collaborators_of CmdBuild) ->
   calls_of FResolveConfig
     (st_trace (action all_fine CmdBuild (VStr ".") 1%positive
                  (init sample_heap 0)).2) = []) /\
  length
    (calls_of FResolveConfig
       (st_trace (action all_fine CmdBuild (VStr ".") 1%positive
                    (init sample_heap 0)).2)) <= 1.
Proof.
  split; [reflexivity|].
  exact (action_calls_only_its_functions all_fine CmdBuild (VStr ".") 1%positive
           sample_heap 0 sample_bag FResolveConfig eq_refl).
Defined.

Lemma action_loads_its_own_module_witness :
  sample_heap !! 1%positive = Some sample_bag /\
  loaded
    (st_trace (action (sample_env (String.eqb "./optimizer") (fun _ => false))
                 CmdOptimize (VStr ".") 1%positive (init sample_heap 0)).2)
  = own_module CmdOptimize /\
  (forall specifier res,
     In (EvImport specifier res)
        (st_trace (action (sample_env (String.eqb "./optimizer") (fun _ => false))
                     CmdOptimize (VStr ".") 1%positive (init sample_heap 0)).2) ->
     In specifier (own_module CmdOptimize)).
Proof.
  split; [reflexivity|].
  exact (action_loads_its_own_module
           (sample_env (String.eqb "./optimizer") (fun _ => false))
           CmdOptimize (VStr ".") 1%positive sample_heap 0 sample_bag eq_refl).
Defined.

Lemma serve_and_build_forward_the_other_keys_witness :
  sample_heap !! 1%positive = Some sample_bag /\
  (CmdServe = CmdServe \/ CmdServe = CmdBuild) /\
  Forall
    (fun call : list value * heap * result value =>
       exists (l r : loc) (cfg forwarded : obj),
         call.1.1 = [VRef l] /\
         call.1.2 !! l = Some cfg /\
         cfg !! "server" = Some (VRef r) /\
         call.1.2 !! r = Some forwarded /\
         (forall k, k ∈ global_keys -> forwarded !! k = None) /\
         (forall k, k ∉ global_keys -> forwarded !! k = sample_bag !! k) /\
         r <> 1%positive /\ l <> 1%positive /\ l <> r /\
         call.1.2 !! 1%positive = Some sample_bag)
    (calls_of FCreateServer
       (st_trace (action all_fine CmdServe (VStr ".") 1%positive
                    (init sample_heap 0)).2)).
Proof.
  split; [reflexivity|]. split; [left; reflexivity|].
  exact (serve_and_build_forward_the_other_keys all_fine CmdServe (VStr ".")
           1%positive sample_heap 0 sample_bag eq_refl (or_introl eq_refl)).
Defined.

Lemma unread_options_change_no_event_witness :
  (forall k, k ∉ unread_keys -> sample_bag !! k = other_bag !! k) /\
  (forall f args h1 h2 w',
     stores_agree_off 1%positive h1 h2 ->
     env_call all_fine f args h1 w' = env_call all_fine f args h2 w') /\
  (action all_fine CmdServe (VStr ".") 1%positive
     (init (<[1%positive := sample_bag]> ∅) 0)).1 =
  (action all_fine CmdServe (VStr ".") 1%positive
     (init (<[1%positive := other_bag]> ∅) 0)).1 /\
  Forall2 (events_agree_off 1%positive)
    (st_trace (action all_fine CmdServe (VStr ".") 1%positive
                 (init (<[1%positive := sample_bag]> ∅) 0)).2)
    (st_trace (action all_fine CmdServe (VStr ".") 1%positive
                 (init (<[1%positive := other_bag]> ∅) 0)).2).
Proof.
  assert (Hblind : forall f args (h1 h2 : heap) w',
            stores_agree_off 1%positive h1 h2 ->
            env_call all_fine f args h1 w' = env_call all_fine f args h2 w')
    by (intros; reflexivity).
  split; [exact sample_bags_agree|]. split; [exact Hblind|].
  pose proof (@unread_options_change_no_event nat all_fine CmdServe
                (VStr ".") 1%positive ∅ 0 sample_bag other_bag
                sample_bags_agree Hblind) as H.
  cbv zeta in H. destruct H as (Hout & Htrace & _).
  split; [exact Hout|exact Htrace].
Defined.

Lemma main_loads_modules_in_order_witness :
  sample_heap !! 1%positive = Some sample_bag /\
  loaded (st_trace (main (sample_env (String.eqb ".") (fun _ => false))
                      CmdServe (VStr ".") 1%positive (init sample_heap 0)).2)
    `prefix_of` (startup_modules ++ own_module CmdServe)%list.
Proof.
  split; [reflexivity|].
  exact (proj1 (main_loads_modules_in_order
                  (sample_env (String.eqb ".") (fun _ => false))
                  CmdServe (VStr ".") 1%positive sample_heap 0 sample_bag eq_refl)).
Defined.

Lemma startup_failure_ends_the_program_witness :
  sample_heap !! 1%positive = Some sample_bag /\
  In "./logger" startup_modules /\
  In (EvImport "./logger" (Err sample_error))
     (st_trace (main (sample_env (String.eqb "./logger") (fun _ => false))
                  CmdServe (VStr ".") 1%positive (init sample_heap 0)).2) /\
  (main (sample_env (String.eqb "./logger") (fun _ => false))
     CmdServe (VStr ".") 1%positive (init sample_heap 0)).1 = Thrown sample_error /\
  (forall f,
     calls_of f
       (st_trace (main (sample_env (String.eqb "./logger") (fun _ => false))
                    CmdServe (VStr ".") 1%positive (init sample_heap 0)).2) = []).
Proof.
  assert (H1 : In "./logger" startup_modules)
    by (vm_compute; right; right; left; reflexivity).
  assert (H2 : In (EvImport "./logger" (Err sample_error))
     (st_trace (main (sample_env (String.eqb "./logger") (fun _ => false))
                  CmdServe (VStr ".") 1%positive (init sample_heap 0)).2))
    by (vm_compute; right; right; left; reflexivity).
  split; [reflexivity|]. split; [exact H1|]. split; [exact H2|].
  pose proof (startup_failure_ends_the_program
                (sample_env (String.eqb "./logger") (fun _ => false))
                CmdServe (VStr ".") 1%positive sample_heap 0 sample_bag
                "./logger" sample_error eq_refl H1 H2) as (Hout & Hcalls & _).
  split; [exact Hout|exact Hcalls].
Defined.
